(** * Finance dashboard gateway: caching proxy in front of three data providers

    Shallow embedding of the Express server (the five [/api/...] routes and
    their helper [makeAPIRequest]) together with the properties of its cache
    and of its response envelopes.

    Layout of the development:
    - [JS]       : the fragment of JavaScript values and coercions the routes use;
    - [Store]    : the TTL cache ([node-cache] with [stdTTL = 300]);
    - [Upstream] : what [axios.get] can answer;
    - [Server]   : [makeAPIRequest] and the five route handlers;
    - [Ecma]     : a reference engine, to run the handlers on examples;
    - [Service], [Browser], [Cli] : the health check and sequences of
      requests, the page's [makeRequest], the command-line tool;
    - the theorems, one group per property. *)

From Stdlib Require Import ZArith String Ascii List Floats DecimalString Sorted.
From stdpp Require Import gmap strings list.
Import ListNotations.

Set Warnings "-register-all".

Open Scope string_scope.
Open Scope Z_scope.

(* ===================================================================== *)
(** ** JavaScript values *)
(* ===================================================================== *)

Module JS.

(** Values that flow through the handlers.  Everything [axios] hands over is
    a JSON value; [JUndefined] is what a missing property reads as, and
    [JNative] stands for a function or built-in object reached through the
    prototype chain (for instance [rates["constructor"]]).  Numbers are IEEE
    binary64, as in the language.  A text is held as its UTF-8 bytes (a lone
    surrogate as the three bytes of its generalised encoding), while the
    language counts a text in UTF-16 code units: one for a character of up
    to three bytes, two for a character of four bytes. *)
Inductive jsval : Type :=
| JUndefined
| JNull
| JBool (b : bool)
| JNum (x : float)
| JStr (s : string)
| JArr (elems : list jsval)
| JObj (props : list (string * jsval))
| JNative (name : string).

(** [ToBoolean]: the test performed by [if (v)], [a || b] and [a && b]. *)
Definition truthy (v : jsval) : bool :=
  match v with
  | JUndefined | JNull => false
  | JBool b => b
  | JNum x => negb (PrimFloat.is_zero x || PrimFloat.is_nan x)
  | JStr s => negb (String.eqb s "")
  | JArr _ | JObj _ | JNative _ => true
  end.

(** [a || b] *)
Definition js_or (a b : jsval) : jsval := if truthy a then a else b.

(** [typeof v === "number"] *)
Definition is_number (v : jsval) : bool :=
  match v with JNum _ => true | _ => false end.

(** [typeof v === "string"] *)
Definition is_string (v : jsval) : bool :=
  match v with JStr _ => true | _ => false end.

(** Own property of an object literal or of a parsed JSON object. *)
Fixpoint own_property (props : list (string * jsval)) (k : string) : option jsval :=
  match props with
  | [] => None
  | (k', v) :: rest => if String.eqb k' k then Some v else own_property rest k
  end.

(** Abrupt completion: the only exceptions the handlers can raise themselves
    are [TypeError]s (reading a property of [null]/[undefined], calling
    something that is not a function). *)
Inductive completion (A : Type) : Type :=
| Normal (a : A)
| Throw (type_error : string).
Arguments Normal {A} a.
Arguments Throw {A} type_error.

Definition bind {A B} (c : completion A) (k : A -> completion B) : completion B :=
  match c with
  | Normal a => k a
  | Throw e => Throw e
  end.

(** [try { body } catch (error) { handler }] where the handler itself cannot
    throw. *)
Definition try_catch {A} (body : completion A) (handler : A) : completion A :=
  match body with
  | Normal a => Normal a
  | Throw _ => Normal handler
  end.

Declare Scope js_scope.
Delimit Scope js_scope with js.
Notation "x <- c ;; k" := (bind c (fun x => k))
  (at level 100, c at next level, right associativity) : js_scope.

(** The message of the [TypeError] raised by reading the property [k] of
    [undefined] or [null] (as V8 words it). *)
Definition cannot_read (what k : string) : string :=
  "Cannot read properties of " +:+ what +:+ " (reading '" +:+ k +:+ "')".

(** [v.k] / [v["k"]] for a key [k] that no built-in prototype defines and that
    is neither an index nor ["length"]: ["Global Quote"], ["data"],
    ["rates"], ["conversion_rate"], ["message"] and the numbered quote
    fields.  Throws on [null] and [undefined], reads an own property on an
    object, and is [undefined] on every other value. *)
Definition get_field (v : jsval) (k : string) : completion jsval :=
  match v with
  | JUndefined => Throw (cannot_read "undefined" k)
  | JNull => Throw (cannot_read "null" k)
  | JObj props => Normal (default JUndefined (own_property props k))
  | _ => Normal JUndefined
  end.

(** [v?.k] for the same kind of key. *)
Definition get_field_opt (v : jsval) (k : string) : jsval :=
  match v with
  | JObj props => default JUndefined (own_property props k)
  | _ => JUndefined
  end.

(** [Object.keys(v).length > 0] for a truthy [v]: own enumerable string
    keys of an object, the indices of an array or of a string; primitives
    other than strings have none. *)
Definition has_own_keys (v : jsval) : bool :=
  match v with
  | JObj props => negb (Nat.eqb (length props) 0)
  | JArr elems => negb (Nat.eqb (length elems) 0)
  | JStr s => negb (String.eqb s "")
  | _ => false
  end.

(** The own properties of an object, in order. *)
Definition Object_entries (v : jsval) : list (string * jsval) :=
  match v with
  | JObj props => props
  | _ => []
  end.

(** [Object.keys(v)] on an object. *)
Definition Object_keys (v : jsval) : list string :=
  match v with
  | JObj props => map fst props
  | _ => []
  end.

(** *** Texts, counted in UTF-16 code units *)

Definition byte_value (c : ascii) : Z := Z.of_nat (nat_of_ascii c).

Definition byte_of (n : Z) : ascii := ascii_of_nat (Z.to_nat n).

(** A byte [10xxxxxx]: the second, third or fourth byte of a character. *)
Definition is_continuation (c : ascii) : bool :=
  (128 <=? byte_value c) && (byte_value c <? 192).

(** A byte [11110xxx]: the first byte of a character outside the basic
    plane, which takes two code units (a surrogate pair). *)
Definition starts_pair (c : ascii) : bool := 240 <=? byte_value c.

(** The high surrogate of the character whose first byte is [lead] and whose
    other bytes open [rest], as a text of its own. *)
Definition high_surrogate (lead : ascii) (rest : string) : string :=
  match rest with
  | String b1 (String b2 (String b3 _)) =>
      let code_point :=
        (byte_value lead mod 8) * 262144 + (byte_value b1 mod 64) * 4096
        + (byte_value b2 mod 64) * 64 + byte_value b3 mod 64 in
      let unit := 55296 + (code_point - 65536) / 1024 in
      String (byte_of 237)
        (String (byte_of (128 + unit / 64 mod 64))
           (String (byte_of (128 + unit mod 64)) EmptyString))
  | _ => EmptyString
  end.

(** [s.slice(0, n)]: the first [n] code units of [s].  A character of two
    code units of which only the first fits is cut in the middle, and its
    high surrogate is kept alone. *)
Fixpoint String_slice_from_start (n : nat) (s : string) : string :=
  match s with
  | EmptyString => EmptyString
  | String c rest =>
      if is_continuation c then String c (String_slice_from_start n rest)
      else
        match n with
        | O => EmptyString
        | S O =>
            if starts_pair c then high_surrogate c rest
            else String c (String_slice_from_start 0 rest)
        | S (S m as n') =>
            String c (String_slice_from_start (if starts_pair c then m else n') rest)
        end
  end.

(** A text of ASCII characters only: every byte is a character and a code
    unit. *)
Fixpoint ascii_text (s : string) : bool :=
  match s with
  | EmptyString => true
  | String c rest => (byte_value c <? 128) && ascii_text rest
  end.

(** [v.slice(0, n)]: defined by [Array.prototype] and [String.prototype]
    only; on anything else the member is not callable. *)
Definition slice_from_start (v : jsval) (n : nat) : completion jsval :=
  match v with
  | JArr elems => Normal (JArr (firstn n elems))
  | JStr s => Normal (JStr (String_slice_from_start n s))
  | _ => Throw "result.data.data.slice is not a function"
  end.

(** What the JavaScript engine supplies and the server only calls: the
    conversions between numbers and text, the coercion of non-primitive
    values to numbers, and the members every value inherits from the built-in
    prototypes.  The handlers are defined, and their properties proved, for
    every engine. *)
Class Engine : Type := {
  (** [parseFloat(s)] *)
  parseFloat : string -> float;
  (** [x.toFixed(digits)] *)
  toFixed : float -> nat -> string;
  (** [ToNumber] of a string, as done by the operator [*] *)
  StringToNumber : string -> float;
  (** [ToNumber] of an array, an object or a function; it goes through
      [valueOf]/[toString] and throws when neither yields a primitive *)
  ObjectToNumber : jsval -> completion float;
  (** [v[k]] when [k] is not an own JSON property of [v]: array and string
      indices, ["length"], and whatever the prototype chain defines *)
  builtin_member : jsval -> string -> jsval;
  (** [s.toUpperCase()] and [s.toLowerCase()]: the case mappings of the
      Unicode standard, which can change the length of a text *)
  toUpperCase : string -> string;
  toLowerCase : string -> string
}.

(** [ToNumber v], the coercion applied by [x * v]. *)
Definition ToNumber `{Engine} (v : jsval) : completion float :=
  match v with
  | JUndefined => Normal PrimFloat.nan
  | JNull => Normal PrimFloat.zero
  | JBool b => Normal (if b then PrimFloat.one else PrimFloat.zero)
  | JNum x => Normal x
  | JStr s => Normal (StringToNumber s)
  | JArr _ | JObj _ | JNative _ => ObjectToNumber v
  end.

(** [v[k]] for a key chosen by the caller. *)
Definition get_member `{Engine} (v : jsval) (k : string) : completion jsval :=
  match v with
  | JUndefined => Throw (cannot_read "undefined" k)
  | JNull => Throw (cannot_read "null" k)
  | JObj props =>
      Normal (match own_property props k with
              | Some x => x
              | None => builtin_member v k
              end)
  | _ => Normal (builtin_member v k)
  end.

(** *** [new Date(ms).toISOString()], for [ms] in the range of [Date] *)

Definition digit_char (d : Z) : ascii := ascii_of_nat (48 + Z.to_nat d).

(** The [width] low decimal digits of [n], most significant first. *)
Fixpoint pad_digits (width : nat) (n : Z) : string :=
  match width with
  | O => EmptyString
  | S w => pad_digits w (n / 10) +:+ String (digit_char (n mod 10)) EmptyString
  end.

(** Proleptic Gregorian date of a day number counted from 1970-01-01. *)
Definition civil_from_days (days : Z) : Z * Z * Z :=
  let z := days + 719468 in
  let era := z / 146097 in
  let doe := z - era * 146097 in
  let yoe := (doe - doe / 1460 + doe / 36524 - doe / 146096) / 365 in
  let doy := doe - (365 * yoe + yoe / 4 - yoe / 100) in
  let mp := (5 * doy + 2) / 153 in
  let d := doy - (153 * mp + 2) / 5 + 1 in
  let m := if mp <? 10 then mp + 3 else mp - 9 in
  let y := yoe + era * 400 + (if m <=? 2 then 1 else 0) in
  (y, m, d).

Definition toISOString (ms : Z) : string :=
  let '(y, m, d) := civil_from_days (ms / 86400000) in
  let t := ms mod 86400000 in
  let year :=
    if (0 <=? y) && (y <=? 9999) then pad_digits 4 y
    else (if y <? 0 then "-" else "+") +:+ pad_digits 6 (Z.abs y) in
  year +:+ "-" +:+ pad_digits 2 m +:+ "-" +:+ pad_digits 2 d +:+ "T"
    +:+ pad_digits 2 (t / 3600000) +:+ ":" +:+ pad_digits 2 (t / 60000 mod 60)
    +:+ ":" +:+ pad_digits 2 (t / 1000 mod 60) +:+ "." +:+ pad_digits 3 (t mod 1000)
    +:+ "Z".

End JS.

Import JS.

(* ===================================================================== *)
(** ** The cache store *)
(* ===================================================================== *)

Module Store.

(** Modelled from the spec: the store is the [node-cache] package, which is
    not part of the repository; an entry is [{ value, storedAt, ttl }] and is
    servable iff [now < storedAt + ttl]; [get] reads an expired entry as
    absent; [set] overwrites unconditionally and restarts the clock.  Times
    are in milliseconds. *)
Record entry : Type := { value : jsval; storedAt : Z; ttl : Z }.

(** [new NodeCache({ stdTTL: 300 })]: five minutes, in seconds. *)
Definition stdTTL : Z := 300.

Definition servable (e : entry) (now : Z) : bool := now <? storedAt e + ttl e.

(** [cache.get(key)]: the stored value, or [undefined]. *)
Definition get (key : string) (now : Z) (c : gmap string entry) : jsval :=
  match c !! key with
  | Some e => if servable e now then value e else JUndefined
  | None => JUndefined
  end.

(** [cache.set(key, v)] with the default TTL. *)
Definition set (key : string) (v : jsval) (now : Z) (c : gmap string entry)
  : gmap string entry :=
  <[key := {| value := v; storedAt := now; ttl := stdTTL * 1000 |}]> c.

End Store.

(* ===================================================================== *)
(** ** The upstream providers, as seen through axios *)
(* ===================================================================== *)

Module Upstream.

(** The error [axios.get] rejects with: a transport failure or a timeout has
    no [response]; a reply with a non-2xx status carries its status and its
    parsed body. *)
Record axios_error : Type := {
  message : string;
  response : option (Z * jsval)
}.

Inductive settled : Type :=
| Fulfilled (data : jsval)
| Rejected (error : axios_error).

(** One upstream exchange: how long the promise takes to settle (at most the
    10 s timeout, in milliseconds) and how it settles. *)
Record reply : Type := { elapsed : N; outcome : settled }.

(** The network answers a GET on a URL. *)
Definition network : Type := string -> reply.

Definition rejected (r : reply) : bool :=
  match outcome r with Rejected _ => true | Fulfilled _ => false end.

End Upstream.

Import Upstream.

(* ===================================================================== *)
(** ** The server *)
(* ===================================================================== *)

Module Server.

(** [process.env], as far as the gateway reads it. *)
Record environment : Type := {
  env_ALPHA_VANTAGE_API_KEY : option string;
  env_EXCHANGE_API_KEY : option string
}.

(** [process.env.X || fallback] *)
Definition env_or (x : option string) (fallback : string) : string :=
  match x with
  | Some s => if String.eqb s "" then fallback else s
  | None => fallback
  end.

Definition ALPHA_VANTAGE_API_KEY (env : environment) : string :=
  env_or (env_ALPHA_VANTAGE_API_KEY env) "demo".

Definition EXCHANGE_API_KEY (env : environment) : string :=
  env_or (env_EXCHANGE_API_KEY env) "".

(** [if (EXCHANGE_API_KEY)]: the paid provider is used iff the key is a
    non-empty string. *)
Definition paid (env : environment) : bool :=
  negb (String.eqb (EXCHANGE_API_KEY env) "").

(** The mutable state of the process: the cache, and (for the statements
    only) the list of URLs requested upstream so far, oldest first. *)
Record state : Type := {
  cache : gmap string Store.entry;
  requested : list string
}.

Definition initial : state := {| cache := ∅; requested := [] |}.

(** What [makeAPIRequest] resolves to:
    [{ success: true, data, cached }] or [{ success: false, error, status }]. *)
Inductive api_result : Type :=
| ApiSuccess (data : jsval) (cached : bool)
| ApiFailure (error : jsval) (status : Z).

(** [error.response?.data?.message || error.message || 'API request failed'] *)
Definition error_text (e : axios_error) : jsval :=
  let from_body :=
    match response e with
    | Some (_, data) => get_field_opt data "message"
    | None => JUndefined
    end in
  js_or (js_or from_body (JStr (message e))) (JStr "API request failed").

(** [s || 500] on a status code *)
Definition status_or_500 (s : Z) : Z := if s =? 0 then 500 else s.

(** [error.response?.status || 500] *)
Definition error_status (e : axios_error) : Z :=
  match response e with
  | Some (s, _) => status_or_500 s
  | None => 500
  end.

(** [makeAPIRequest(url, cacheKey)], called at time [now]; also returns the
    time at which it resolves. *)
Definition makeAPIRequest (net : network) (url cacheKey : string)
    (now : Z) (st : state) : api_result * state * Z :=
  let cachedData := Store.get cacheKey now (cache st) in
  if truthy cachedData then
    (ApiSuccess cachedData true, st, now)
  else
    let r := net url in
    let later := now + Z.of_N (elapsed r) in
    match outcome r with
    | Fulfilled data =>
        (ApiSuccess data false,
         {| cache := Store.set cacheKey data later (cache st);
            requested := requested st ++ [url] |},
         later)
    | Rejected error =>
        (ApiFailure (error_text error) (error_status error),
         {| cache := cache st; requested := requested st ++ [url] |},
         later)
    end.

(** Whether [makeAPIRequest] would answer from the cache. *)
Definition cache_hit (key : string) (now : Z) (st : state) : bool :=
  truthy (Store.get key now (cache st)).

(** The three ways a call to [makeAPIRequest] can go. *)
Inductive api_call (net : network) (url key : string) (now : Z) (st : state)
  : api_result * state * Z -> Prop :=
| call_hit :
    cache_hit key now st = true ->
    api_call net url key now st
      (ApiSuccess (Store.get key now (cache st)) true, st, now)
| call_fetched (data : jsval) :
    cache_hit key now st = false ->
    outcome (net url) = Fulfilled data ->
    api_call net url key now st
      (ApiSuccess data false,
       {| cache := Store.set key data (now + Z.of_N (elapsed (net url))) (cache st);
          requested := requested st ++ [url] |},
       now + Z.of_N (elapsed (net url)))
| call_failed (error : axios_error) :
    cache_hit key now st = false ->
    outcome (net url) = Rejected error ->
    api_call net url key now st
      (ApiFailure (error_text error) (error_status error),
       {| cache := cache st; requested := requested st ++ [url] |},
       now + Z.of_N (elapsed (net url))).

(** What a handler sends: [res.status(code).json(body)], the status being
    200 when the handler does not set it. *)
Record http_response : Type := { status : Z; body : jsval }.

(** [res.json({ success: true, data, cached, timestamp: new Date().toISOString() })] *)
Definition send_success (data : jsval) (cached : bool) (now : Z) : http_response :=
  {| status := 200;
     body := JObj [("success", JBool true); ("data", data);
                   ("cached", JBool cached);
                   ("timestamp", JStr (toISOString now))] |}.

(** [res.status(code).json({ success: false, error })] *)
Definition send_error (code : Z) (error : jsval) : http_response :=
  {| status := code;
     body := JObj [("success", JBool false); ("error", error)] |}.

(** [res.status(500).json({ success: false, error: "Internal server error", message })] *)
Definition send_internal_error (msg : string) : http_response :=
  {| status := 500;
     body := JObj [("success", JBool false);
                   ("error", JStr "Internal server error");
                   ("message", JStr msg)] |}.

(** The [else] branch shared by the stock, crypto and convert routes. *)
Definition send_upstream_failure (error : jsval) (code : Z) : http_response :=
  send_error (status_or_500 code) error.

(** *** GET /api/exchange-rates/:base? *)

(** [req.params.x || fallback] for an optional route parameter *)
Definition param_or (x : option string) (fallback : string) : string :=
  match x with
  | Some s => if String.eqb s "" then fallback else s
  | None => fallback
  end.

Definition exchange_cacheKey (base : option string) : string :=
  "exchange_" +:+ param_or base "USD".

Definition exchange_url (env : environment) (base : option string) : string :=
  let baseCurrency := param_or base "USD" in
  if paid env then
    "https://v6.exchangerate-api.com/v6/" +:+ EXCHANGE_API_KEY env
      +:+ "/latest/" +:+ baseCurrency
  else
    "https://api.exchangerate-api.com/v4/latest/" +:+ baseCurrency.

(** The body of the [try] after [await makeAPIRequest(...)]; [later] is the
    time at which the request resolved. *)
Definition exchange_rates_respond (result : api_result) (later : Z)
  : completion http_response :=
  match result with
  | ApiSuccess data cached => Normal (send_success data cached later)
  | ApiFailure error code =>
      Normal {| status := status_or_500 code;
                body := JObj [("success", JBool false); ("error", error);
                              ("fallback",
                               JStr "Exchange rate data temporarily unavailable")] |}
  end.

Definition exchange_rates_answer (result : api_result) (later : Z)
  : completion http_response :=
  try_catch (exchange_rates_respond result later)
    (send_internal_error "Unable to fetch exchange rates").

Definition exchange_rates (env : environment) (base : option string)
    (net : network) (now : Z) (st : state) : completion http_response * state :=
  let '(result, st', later) :=
    makeAPIRequest net (exchange_url env base) (exchange_cacheKey base) now st in
  (exchange_rates_answer result later, st').

(** *** GET /api/stock/:symbol *)

Definition stock_cacheKey `{Engine} (symbol_param : string) : string :=
  "stock_" +:+ toUpperCase symbol_param.

Definition stock_url `{Engine} (env : environment) (symbol_param : string) : string :=
  "https://www.alphavantage.co/query?function=GLOBAL_QUOTE&symbol="
    +:+ toUpperCase symbol_param +:+ "&apikey=" +:+ ALPHA_VANTAGE_API_KEY env.

(** The [data] object of a stock envelope, fields in source order. *)
Definition stock_data (quote : jsval) : completion jsval :=
  (symbol <- get_field quote "01. symbol";;
   price <- get_field quote "05. price";;
   change <- get_field quote "09. change";;
   changePercent <- get_field quote "10. change percent";;
   volume <- get_field quote "06. volume";;
   lastUpdate <- get_field quote "07. latest trading day";;
   Normal (JObj [("symbol", symbol); ("price", price); ("change", change);
                 ("changePercent", changePercent); ("volume", volume);
                 ("lastUpdate", lastUpdate)]))%js.

Definition stock_respond (symbol : string) (result : api_result) (later : Z)
  : completion http_response :=
  match result with
  | ApiSuccess data cached =>
      (quote <- get_field data "Global Quote";;
       if truthy quote && has_own_keys quote then
         (d <- stock_data quote;;
          Normal (send_success d cached later))
       else
         Normal (send_error 404
                   (JStr ("Stock symbol '" +:+ symbol +:+ "' not found or invalid"))))%js
  | ApiFailure error code => Normal (send_upstream_failure error code)
  end.

Definition stock_answer `{Engine} (symbol_param : string) (result : api_result) (later : Z)
  : completion http_response :=
  let symbol := toUpperCase symbol_param in
  try_catch (stock_respond symbol result later)
    (send_internal_error ("Unable to fetch stock data for " +:+ symbol)).

Definition stock `{Engine} (env : environment) (symbol_param : string)
    (net : network) (now : Z) (st : state) : completion http_response * state :=
  let '(result, st', later) :=
    makeAPIRequest net (stock_url env symbol_param) (stock_cacheKey symbol_param) now st in
  (stock_answer symbol_param result later, st').

(** *** GET /api/crypto/:ids? *)

Definition default_cryptoIds : string := "bitcoin,ethereum,cardano,polkadot,chainlink".

Definition crypto_cacheKey (ids : option string) : string :=
  "crypto_" +:+ param_or ids default_cryptoIds.

Definition crypto_url (ids : option string) : string :=
  "https://api.coingecko.com/api/v3/simple/price?ids=" +:+ param_or ids default_cryptoIds
    +:+ "&vs_currencies=usd&include_24hr_change=true&include_market_cap=true".

Definition crypto_respond (result : api_result) (later : Z)
  : completion http_response :=
  match result with
  | ApiSuccess data cached => Normal (send_success data cached later)
  | ApiFailure error code => Normal (send_upstream_failure error code)
  end.

Definition crypto_answer (result : api_result) (later : Z)
  : completion http_response :=
  try_catch (crypto_respond result later)
    (send_internal_error "Unable to fetch cryptocurrency data").

Definition crypto (ids : option string)
    (net : network) (now : Z) (st : state) : completion http_response * state :=
  let '(result, st', later) :=
    makeAPIRequest net (crypto_url ids) (crypto_cacheKey ids) now st in
  (crypto_answer result later, st').

(** *** GET /api/economic/:indicator *)

(** The object literal [indicatorMap].  Its keys are looked up with an
    upper-cased name; every name [Object.prototype] defines contains a
    lower-case ASCII letter and no upper-cased text does, so only the four
    own keys can be found. *)
Definition indicatorMap : list (string * string) :=
  [("GDP", "REAL_GDP");
   ("INFLATION", "INFLATION");
   ("UNEMPLOYMENT", "UNEMPLOYMENT");
   ("INTEREST_RATE", "FEDERAL_FUNDS_RATE")].

Fixpoint indicatorMap_get (m : list (string * string)) (k : string) : option string :=
  match m with
  | [] => None
  | (k', v) :: rest => if String.eqb k' k then Some v else indicatorMap_get rest k
  end.

(** [indicatorMap[indicator] || indicator] *)
Definition functionName (indicator : string) : string :=
  match indicatorMap_get indicatorMap indicator with
  | Some f => if String.eqb f "" then indicator else f
  | None => indicator
  end.

Definition economic_cacheKey `{Engine} (indicator_param : string) : string :=
  "economic_" +:+ toUpperCase indicator_param.

Definition economic_url `{Engine} (env : environment) (indicator_param : string) : string :=
  "https://www.alphavantage.co/query?function="
    +:+ functionName (toUpperCase indicator_param)
    +:+ "&apikey=" +:+ ALPHA_VANTAGE_API_KEY env.

Definition economic_respond (indicator : string) (result : api_result) (later : Z)
  : completion http_response :=
  let not_found :=
    send_error 404
      (JStr ("Economic indicator '" +:+ indicator +:+ "' not found or unavailable")) in
  match result with
  | ApiSuccess data cached =>
      (series <- get_field data "data";;
       if truthy series then
         (points <- slice_from_start series 10;;
          Normal (send_success points cached later))
       else Normal not_found)%js
  | ApiFailure _ _ => Normal not_found
  end.

Definition economic_answer `{Engine} (indicator_param : string) (result : api_result)
    (later : Z)
  : completion http_response :=
  let indicator := toUpperCase indicator_param in
  try_catch (economic_respond indicator result later)
    (send_internal_error ("Unable to fetch economic data for " +:+ indicator)).

Definition economic `{Engine} (env : environment) (indicator_param : string)
    (net : network) (now : Z) (st : state) : completion http_response * state :=
  let '(result, st', later) :=
    makeAPIRequest net (economic_url env indicator_param)
      (economic_cacheKey indicator_param) now st in
  (economic_answer indicator_param result later, st').

(** *** GET /api/convert/:from/:to/:amount *)

Definition convert_cacheKey (from to : string) : string :=
  "convert_" +:+ from +:+ "_" +:+ to.

Definition convert_url (env : environment) (from to : string) : string :=
  if paid env then
    "https://v6.exchangerate-api.com/v6/" +:+ EXCHANGE_API_KEY env
      +:+ "/pair/" +:+ from +:+ "/" +:+ to
  else
    "https://api.exchangerate-api.com/v4/latest/" +:+ from.

Section Convert.
Context `{Engine}.

(** The rate read from the provider's payload: the paid provider's
    [conversion_rate], or the entry of the free provider's [rates] table. *)
Definition conversionRate_of (env : environment) (to : string) (data : jsval)
  : completion jsval :=
  if paid env then get_field data "conversion_rate"
  else (rates <- get_field data "rates";; get_member rates to)%js.

(** [(parseFloat(amount) * conversionRate).toFixed(2)] *)
Definition convertedAmount (amount : string) (conversionRate : jsval)
  : completion string :=
  (r <- ToNumber conversionRate;;
   Normal (toFixed (PrimFloat.mul (parseFloat amount) r) 2))%js.

(** The [data] object of a conversion envelope. *)
Definition convert_data (from to amount : string) (conversionRate : jsval)
    (converted : string) : jsval :=
  JObj [("from", JStr from); ("to", JStr to);
        ("amount", JNum (parseFloat amount));
        ("rate", conversionRate);
        ("result", JNum (parseFloat converted))].

Definition convert_respond (env : environment) (from to amount : string)
    (result : api_result) (later : Z) : completion http_response :=
  match result with
  | ApiSuccess data cached =>
      (conversionRate <- conversionRate_of env to data;;
       if truthy conversionRate then
         (converted <- convertedAmount amount conversionRate;;
          Normal (send_success (convert_data from to amount conversionRate converted)
                    cached later))
       else
         Normal (send_error 404
                   (JStr ("Conversion rate from " +:+ from +:+ " to " +:+ to
                            +:+ " not available"))))%js
  | ApiFailure error code => Normal (send_upstream_failure error code)
  end.

Definition convert_answer (env : environment) (from to amount : string)
    (result : api_result) (later : Z) : completion http_response :=
  try_catch (convert_respond env from to amount result later)
    (send_internal_error ("Unable to convert " +:+ from +:+ " to " +:+ to)).

Definition convert (env : environment) (from to amount : string)
    (net : network) (now : Z) (st : state) : completion http_response * state :=
  let '(result, st', later) :=
    makeAPIRequest net (convert_url env from to) (convert_cacheKey from to) now st in
  (convert_answer env from to amount result later, st').

End Convert.

(** *** The gateway as one entry point *)

(** A request to one of the five capabilities, with its route parameters. *)
Inductive request : Type :=
| ExchangeRates (base : option string)
| Stock (symbol : string)
| Crypto (ids : option string)
| Economic (indicator : string)
| Convert (from to amount : string).

Definition cacheKey_of `{Engine} (q : request) : string :=
  match q with
  | ExchangeRates base => exchange_cacheKey base
  | Stock symbol => stock_cacheKey symbol
  | Crypto ids => crypto_cacheKey ids
  | Economic indicator => economic_cacheKey indicator
  | Convert from to _ => convert_cacheKey from to
  end.

Definition url_of `{Engine} (env : environment) (q : request) : string :=
  match q with
  | ExchangeRates base => exchange_url env base
  | Stock symbol => stock_url env symbol
  | Crypto ids => crypto_url ids
  | Economic indicator => economic_url env indicator
  | Convert from to _ => convert_url env from to
  end.

(** What the route answers once [makeAPIRequest] has resolved. *)
Definition answer `{Engine} (env : environment) (q : request)
    (result : api_result) (later : Z) : completion http_response :=
  match q with
  | ExchangeRates _ => exchange_rates_answer result later
  | Stock symbol => stock_answer symbol result later
  | Crypto _ => crypto_answer result later
  | Economic indicator => economic_answer indicator result later
  | Convert from to amount => convert_answer env from to amount result later
  end.

Definition handle `{Engine} (env : environment) (q : request)
    (net : network) (now : Z) (st : state) : completion http_response * state :=
  match q with
  | ExchangeRates base => exchange_rates env base net now st
  | Stock symbol => stock env symbol net now st
  | Crypto ids => crypto ids net now st
  | Economic indicator => economic env indicator net now st
  | Convert from to amount => convert env from to amount net now st
  end.

(** *** The error-handling middleware *)

(** What Express answers through [app.use((err, req, res, next) => ...)]
    when a handler passes an error on. *)
Definition error_middleware : http_response :=
  {| status := 500;
     body := JObj [("success", JBool false);
                   ("error", JStr "Internal server error");
                   ("message", JStr "Something went wrong on our end")] |}.

(** *** Reading an envelope *)

Definition envelope_field (r : http_response) (k : string) : jsval :=
  get_field_opt (body r) k.

Definition succeeded (r : http_response) : bool :=
  match envelope_field r "success" with JBool true => true | _ => false end.

Definition failed (r : http_response) : bool :=
  match envelope_field r "success" with JBool false => true | _ => false end.

(** [typeof v === "boolean"] *)
Definition is_boolean (v : jsval) : bool :=
  match v with JBool _ => true | _ => false end.

(** Whether the body has an own field [k]. *)
Definition has_field (r : http_response) (k : string) : bool :=
  match own_property (Object_entries (body r)) k with
  | Some _ => true
  | None => false
  end.

Fixpoint same_keys (ks ks' : list string) : bool :=
  match ks, ks' with
  | [], [] => true
  | k :: ks, k' :: ks' => String.eqb k k' && same_keys ks ks'
  | _, _ => false
  end.

(** The success answer of the routes: status 200 and exactly the fields
    [success: true], [data], [cached] (a boolean) and [timestamp] (a
    text). *)
Definition success_envelope (r : http_response) : bool :=
  (status r =? 200)
  && same_keys (Object_keys (body r)) ["success"; "data"; "cached"; "timestamp"]
  && succeeded r
  && is_boolean (envelope_field r "cached")
  && is_string (envelope_field r "timestamp").

(** The failure answer of the routes: [success: false] and an [error] that
    does not read as false (for a text: not empty), followed on some paths
    by one explanatory text, [fallback] or [message]; nothing else. *)
Definition failure_envelope (r : http_response) : bool :=
  (same_keys (Object_keys (body r)) ["success"; "error"]
   || same_keys (Object_keys (body r)) ["success"; "error"; "fallback"]
   || same_keys (Object_keys (body r)) ["success"; "error"; "message"])
  && failed r
  && truthy (envelope_field r "error").

(** The envelope as the specification describes it, to compare the answers
    of the routes with:
    [ResponseEnvelope = { success: bool, data | error, cached: bool, timestamp }]. *)
Definition ResponseEnvelope (r : http_response) : bool :=
  match envelope_field r "success" with
  | JBool ok =>
      has_field r (if ok then "data" else "error")
      && is_boolean (envelope_field r "cached")
      && has_field r "timestamp"
  | _ => false
  end.

(** [envelope.data.k] *)
Definition data_field (r : http_response) (k : string) : jsval :=
  get_field_opt (envelope_field r "data") k.

End Server.

(* ===================================================================== *)
(** ** A reference engine *)
(* ===================================================================== *)

(** An executable [Engine] following ECMA-262 on ASCII text (every byte
    below 128), used to run the handlers on concrete requests, all of which
    are ASCII.  The general theorems do not depend on it: they hold for
    every engine. *)
Module Ecma.

Definition is_digit (c : ascii) : bool :=
  let n := nat_of_ascii c in (Nat.leb 48 n && Nat.leb n 57)%bool.

Definition digit_value (c : ascii) : Z := Z.of_nat (nat_of_ascii c) - 48.

(** [StrWhiteSpaceChar], ASCII part: TAB, LF, VT, FF, CR, SP. *)
Definition is_space (c : ascii) : bool :=
  let n := nat_of_ascii c in
  (Nat.leb 9 n && Nat.leb n 13 || Nat.eqb n 32)%bool.

Fixpoint trim_start (s : string) : string :=
  match s with
  | String c rest => if is_space c then trim_start rest else s
  | EmptyString => EmptyString
  end.

Definition trim (s : string) : string :=
  String.rev (trim_start (String.rev (trim_start s))).

(** The longest run of decimal digits at the head of [s]: the value they add
    to [acc], how many there are, and what follows. *)
Fixpoint read_digits (s : string) (acc count : Z) : Z * Z * string :=
  match s with
  | String c rest =>
      if is_digit c then read_digits rest (10 * acc + digit_value c) (count + 1)
      else (acc, count, s)
  | EmptyString => (acc, count, s)
  end.

(** The value of [m * 10^e10], rounded to nearest, ties to even. *)
Definition decimal_to_float (neg : bool) (m e10 : Z) : float :=
  match m with
  | Z0 => if neg then neg_zero else zero
  | Zpos p =>
      let bits := Z.log2 m in
      if 310 <=? bits / 4 + e10 then (if neg then neg_infinity else infinity)
      else if (bits + 1) / 3 + 1 + e10 <=? -400 then (if neg then neg_zero else zero)
      else if 0 <=? e10 then SF2Prim (binary_round prec emax neg (Z.to_pos (m * 10 ^ e10)) 0)
      else
        let d := 10 ^ (- e10) in
        let k := Z.log2 d + 70 in
        let q := (m * 2 ^ k) / d in
        let r := (m * 2 ^ k) mod d in
        SF2Prim (binary_round_aux prec emax neg q (- k)
                   (if r =? 0 then loc_Exact else loc_Inexact (2 * r ?= d)))
  | Zneg _ => nan
  end.

Definition starts_with (p s : string) : bool := String.prefix p s.

(** [ExponentPart] at the head of [s], if there is a complete one. *)
Definition read_exponent (s : string) : Z * string :=
  match s with
  | String c after_e =>
      if (Ascii.eqb c "e" || Ascii.eqb c "E")%bool then
        let '(sign, ds) :=
          match after_e with
          | String "+" r => (1, r)
          | String "-" r => (-1, r)
          | _ => (1, after_e)
          end in
        let '(e, n, rest) := read_digits ds 0 0 in
        if 0 <? n then (sign * e, rest) else (0, s)
      else (0, s)
  | EmptyString => (0, s)
  end.

(** The longest [StrUnsignedDecimalLiteral] other than [Infinity] at the
    head of [s]: mantissa, decimal exponent, rest. *)
Definition read_unsigned (s : string) : option (Z * Z * string) :=
  let '(ip, ni, s1) := read_digits s 0 0 in
  let '(m, nf, s2) :=
    match s1 with
    | String "." after_dot =>
        let '(m, nf, s2) := read_digits after_dot ip 0 in
        if ((0 <? ni) || (0 <? nf))%bool then (m, nf, s2) else (ip, 0, s1)
    | _ => (ip, 0, s1)
    end in
  if ((ni =? 0) && (nf =? 0))%bool then None
  else
    let '(e, s3) := read_exponent s2 in
    Some (m, e - nf, s3).

(** The longest [StrDecimalLiteral] at the head of [s]: its value and the
    rest. *)
Definition read_decimal (s : string) : option (float * string) :=
  let '(neg, body) :=
    match s with
    | String "+" r => (false, r)
    | String "-" r => (true, r)
    | _ => (false, s)
    end in
  if starts_with "Infinity" body then
    Some (if neg then neg_infinity else infinity,
          String.substring 8 (String.length body - 8) body)
  else
    match read_unsigned body with
    | Some (m, e, rest) => Some (decimal_to_float neg m e, rest)
    | None => None
    end.

Definition parseFloat (s : string) : float :=
  match read_decimal (trim_start s) with
  | Some (x, _) => x
  | None => nan
  end.

(** Digits in base 2, 8 or 16. *)
Definition radix_digit (radix : Z) (c : ascii) : option Z :=
  let n := Z.of_nat (nat_of_ascii c) in
  let v := if (48 <=? n) && (n <=? 57) then n - 48
           else if (97 <=? n) && (n <=? 102) then n - 87
           else if (65 <=? n) && (n <=? 70) then n - 55
           else radix in
  if v <? radix then Some v else None.

Fixpoint read_radix (radix : Z) (s : string) (acc : Z) : option Z :=
  match s with
  | EmptyString => Some acc
  | String c rest =>
      match radix_digit radix c with
      | Some v => read_radix radix rest (radix * acc + v)
      | None => None
      end
  end.

Definition radix_literal (radix : Z) (digits : string) : float :=
  match digits with
  | EmptyString => nan
  | _ => match read_radix radix digits 0 with
         | Some n => decimal_to_float false n 0
         | None => nan
         end
  end.

(** [StringToNumber]: the whole trimmed text must be a numeric literal; the
    empty text is [0]. *)
Definition StringToNumber (s : string) : float :=
  match trim s with
  | EmptyString => zero
  | String "0" (String c digits) as t =>
      if (Ascii.eqb c "x" || Ascii.eqb c "X")%bool then radix_literal 16 digits
      else if (Ascii.eqb c "o" || Ascii.eqb c "O")%bool then radix_literal 8 digits
      else if (Ascii.eqb c "b" || Ascii.eqb c "B")%bool then radix_literal 2 digits
      else match read_decimal t with
           | Some (x, EmptyString) => x
           | _ => nan
           end
  | t => match read_decimal t with
         | Some (x, EmptyString) => x
         | _ => nan
         end
  end.

(** Decimal digits of a natural number. *)
Definition decimal (n : Z) : string := NilZero.string_of_uint (N.to_uint (Z.to_N n)).

Fixpoint zeros (n : nat) : string :=
  match n with O => EmptyString | S k => String "0" (zeros k) end.

(** [n / 10^digits] written with exactly [digits] decimals. *)
Definition fixed_point (n : Z) (digits : nat) : string :=
  let ds := decimal n in
  let ds := zeros (S digits - String.length ds) +:+ ds in
  let int_len := (String.length ds - digits)%nat in
  match digits with
  | O => ds
  | _ => String.substring 0 int_len ds +:+ "." +:+ String.substring int_len digits ds
  end.

Fixpoint strip_trailing_zeros_rev (s : string) : string :=
  match s with
  | String "0" rest => strip_trailing_zeros_rev rest
  | _ => s
  end.

(** The shortest decimal [s * 10^e] that reads back as [x], for an integral
    [x] of value [X]: tries 1, 2, ... significant digits. *)
Fixpoint shortest_from (fuel : nat) (k : Z) (x : float) (X len : Z) : Z * Z :=
  match fuel with
  | O => (X, 0)
  | S fuel' =>
      let p := 10 ^ (len - k) in
      let lo := X / p in
      let hi := lo + 1 in
      let ok c := PrimFloat.Leibniz.eqb (decimal_to_float false c (len - k)) x in
      let below := X - lo * p in
      let above := hi * p - X in
      if ok lo && ok hi then
        (if (below <? above) || ((below =? above) && Z.even lo) then lo else hi, len - k)
      else if ok lo then (lo, len - k)
      else if ok hi then (hi, len - k)
      else shortest_from fuel' (k + 1) x X len
  end.

(** [Number::toString] of a finite [x >= 1e21] of integral value [X]:
    always in exponent notation. *)
Definition exponent_notation (x : float) (X : Z) : string :=
  let len := Z.of_nat (String.length (decimal X)) in
  let '(s, e) := shortest_from 17 1 x X len in
  let all := decimal s in
  let ds := String.rev (strip_trailing_zeros_rev (String.rev all)) in
  let exponent := Z.of_nat (String.length all) + e - 1 in
  String.substring 0 1 ds
    +:+ (if Nat.ltb 1 (String.length ds)
         then "." +:+ String.substring 1 (String.length ds - 1) ds else "")
    +:+ "e+" +:+ decimal exponent.

(** [Number.prototype.toFixed]. *)
Definition toFixed (x : float) (digits : nat) : string :=
  match Prim2SF x with
  | S754_nan => "NaN"
  | S754_infinity s => (if s then "-" else "") +:+ "Infinity"
  | S754_zero _ => fixed_point 0 digits
  | S754_finite s m e =>
      let sign := if s then "-" else "" in
      if 0 <=? e then
        let X := Z.pos m * 2 ^ e in
        if 10 ^ 21 <=? X then sign +:+ exponent_notation (abs x) X
        else sign +:+ fixed_point (X * 10 ^ Z.of_nat digits) digits
      else
        let scaled := Z.pos m * 10 ^ Z.of_nat digits in
        if 10 ^ 21 * 2 ^ (- e) <=? Z.pos m then
          sign +:+ exponent_notation (abs x) (Z.pos m / 2 ^ (- e))
        else sign +:+ fixed_point ((2 * scaled + 2 ^ (- e)) / 2 ^ (- e + 1)) digits
  end.

(** [ToString v] throws exactly when an object inside [v] shadows
    [toString] with JSON data: the inherited [valueOf] returns the object
    itself, and nothing callable is left. *)
Fixpoint to_string_throws (v : jsval) : bool :=
  match v with
  | JObj props => match own_property props "toString" with Some _ => true | None => false end
  | JArr elems => existsb to_string_throws elems
  | _ => false
  end.

(** [StringToNumber (ToString v)] when [ToString v] does not throw.  An
    array is joined with commas ([null] and [undefined] elements read as
    the empty text), so only arrays of at most one element can be numeric;
    a number survives the round trip through its shortest decimal, except
    that [-0] prints as ["0"]. *)
Fixpoint number_of_text_of (v : jsval) : float :=
  match v with
  | JNum x => if PrimFloat.is_zero x then zero else x
  | JStr s => StringToNumber s
  | JArr [] => zero
  | JArr [JUndefined] | JArr [JNull] => zero
  | JArr [x] => number_of_text_of x
  | _ => nan
  end.

Definition ObjectToNumber (v : jsval) : completion float :=
  if to_string_throws v then Throw "Cannot convert object to primitive value"
  else Normal (number_of_text_of v).

(** Names defined by the built-in prototypes (ES2023). *)
Definition object_prototype : list string :=
  ["constructor"; "__defineGetter__"; "__defineSetter__"; "hasOwnProperty";
   "__lookupGetter__"; "__lookupSetter__"; "isPrototypeOf";
   "propertyIsEnumerable"; "toString"; "valueOf"; "__proto__";
   "toLocaleString"].

Definition array_prototype : list string :=
  ["at"; "concat"; "copyWithin"; "entries"; "every"; "fill"; "filter"; "find";
   "findIndex"; "findLast"; "findLastIndex"; "flat"; "flatMap"; "forEach";
   "includes"; "indexOf"; "join"; "keys"; "lastIndexOf"; "map"; "pop"; "push";
   "reduce"; "reduceRight"; "reverse"; "shift"; "slice"; "some"; "sort";
   "splice"; "toReversed"; "toSorted"; "toSpliced"; "unshift"; "values";
   "with"].

Definition string_prototype : list string :=
  ["anchor"; "at"; "big"; "blink"; "bold"; "charAt"; "charCodeAt";
   "codePointAt"; "concat"; "endsWith"; "fixed"; "fontcolor"; "fontsize";
   "includes"; "indexOf"; "isWellFormed"; "italics"; "lastIndexOf"; "link";
   "localeCompare"; "match"; "matchAll"; "normalize"; "padEnd"; "padStart";
   "repeat"; "replace"; "replaceAll"; "search"; "slice"; "small"; "split";
   "startsWith"; "strike"; "sub"; "substr"; "substring"; "sup";
   "toLocaleLowerCase"; "toLocaleUpperCase"; "toLowerCase"; "toUpperCase";
   "toWellFormed"; "trim"; "trimEnd"; "trimLeft"; "trimRight"; "trimStart"].

Definition number_prototype : list string :=
  ["toExponential"; "toFixed"; "toPrecision"].

Definition function_prototype : list string :=
  ["apply"; "bind"; "call"; "length"; "name"; "arguments"; "caller"].

(** A canonical array index: decimal digits without a leading zero. *)
Definition canonical_index (k : string) : option nat :=
  match read_digits k 0 0 with
  | (n, _, EmptyString) => if String.eqb (decimal n) k then Some (Z.to_nat n) else None
  | _ => None
  end.

Definition builtin_member (v : jsval) (k : string) : jsval :=
  let inherited (names : list string) :=
    if existsb (String.eqb k) (names ++ object_prototype) then JNative k
    else JUndefined in
  match v with
  | JUndefined | JNull => JUndefined
  | JBool _ => inherited []
  | JNum _ => inherited number_prototype
  | JObj _ => inherited []
  | JNative _ => inherited function_prototype
  | JArr elems =>
      match canonical_index k with
      | Some i => nth i elems JUndefined
      | None =>
          if String.eqb k "length"
          then JNum (decimal_to_float false (Z.of_nat (length elems)) 0)
          else inherited array_prototype
      end
  | JStr s =>
      match canonical_index k with
      | Some i => match String.get i s with
                  | Some c => JStr (String c EmptyString)
                  | None => JUndefined
                  end
      | None =>
          if String.eqb k "length"
          then JNum (decimal_to_float false (Z.of_nat (String.length s)) 0)
          else inherited string_prototype
      end
  end.

(** The case mappings on ASCII letters; every other byte is left as it
    is.  On ASCII text this is what [String.prototype.toUpperCase] and
    [toLowerCase] do; on other text the mappings of the Unicode standard
    change more than that (and can change the length of the text). *)
Definition upper_ascii (c : ascii) : ascii :=
  let n := nat_of_ascii c in
  if (Nat.leb 97 n && Nat.leb n 122)%bool then ascii_of_nat (n - 32) else c.

Definition lower_ascii (c : ascii) : ascii :=
  let n := nat_of_ascii c in
  if (Nat.leb 65 n && Nat.leb n 90)%bool then ascii_of_nat (n + 32) else c.

Fixpoint toUpperCase (s : string) : string :=
  match s with
  | EmptyString => EmptyString
  | String c rest => String (upper_ascii c) (toUpperCase rest)
  end.

Fixpoint toLowerCase (s : string) : string :=
  match s with
  | EmptyString => EmptyString
  | String c rest => String (lower_ascii c) (toLowerCase rest)
  end.

Definition engine : Engine := {|
  JS.parseFloat := parseFloat;
  JS.toFixed := toFixed;
  JS.StringToNumber := StringToNumber;
  JS.ObjectToNumber := ObjectToNumber;
  JS.builtin_member := builtin_member;
  JS.toUpperCase := toUpperCase;
  JS.toLowerCase := toLowerCase
|}.

End Ecma.

Import Server.

(* ===================================================================== *)
(** ** Concrete requests and provider replies *)
(* ===================================================================== *)

Module Examples.

(** No credential configured: the free exchange-rate provider is used. *)
Definition env_free : environment :=
  {| env_ALPHA_VANTAGE_API_KEY := None; env_EXCHANGE_API_KEY := None |}.

(** A paid exchange-rate credential is configured. *)
Definition env_paid : environment :=
  {| env_ALPHA_VANTAGE_API_KEY := None; env_EXCHANGE_API_KEY := Some "k3y" |}.

(** 2023-11-14T22:13:20.000Z *)
Definition t0 : Z := 1700000000000.

(** A network that answers every request with the same 2xx payload after
    120 ms. *)
Definition answers (data : jsval) : network :=
  fun _ => {| elapsed := 120; outcome := Fulfilled data |}.

(** A network on which every request runs into the 10 s timeout. *)
Definition times_out : network :=
  fun _ => {| elapsed := 10000;
              outcome := Rejected {| message := "timeout of 10000ms exceeded";
                                     response := None |} |}.

(** A network that answers 503 with a JSON error body. *)
Definition unavailable : network :=
  fun _ => {| elapsed := 80;
              outcome := Rejected
                {| message := "Request failed with status code 503";
                   response := Some (503, JObj [("message", JStr "Service Unavailable")]) |} |}.

(** The quote provider's reply for a symbol it does not know. *)
Definition empty_quote : jsval := JObj [("Global Quote", JObj [])].

(** The quote provider's reply for a known symbol: every figure is text. *)
Definition aapl_quote : jsval :=
  JObj [("Global Quote",
         JObj [("01. symbol", JStr "AAPL"); ("02. open", JStr "187.8450");
               ("03. high", JStr "190.3800"); ("04. low", JStr "187.5200");
               ("05. price", JStr "189.8400"); ("06. volume", JStr "41342338");
               ("07. latest trading day", JStr "2023-11-14");
               ("08. previous close", JStr "187.4400");
               ("09. change", JStr "2.4000");
               ("10. change percent", JStr "1.2804%")])].

(** The free exchange-rate provider's table for USD. *)
Definition usd_rates : jsval :=
  JObj [("base", JStr "USD"); ("date", JStr "2023-11-14");
        ("rates", JObj [("USD", JNum 1); ("EUR", JNum 0.875); ("RWF", JNum 1235.5)])].


(** The paid exchange-rate provider's reply for one pair. *)
Definition usd_eur_pair : jsval :=
  JObj [("result", JStr "success"); ("base_code", JStr "USD");
        ("target_code", JStr "EUR"); ("conversion_rate", JNum 0.875)].


(** One point of an indicator series. *)
Definition point (date value : string) : jsval :=
  JObj [("date", JStr date); ("value", JStr value)].

(** The indicator provider's monthly CPI series, newest first: twelve
    points. *)
Definition cpi_points : list jsval :=
  [point "2023-10-01" "307.671";
   point "2023-09-01" "307.789";
   point "2023-08-01" "307.026";
   point "2023-07-01" "305.691";
   point "2023-06-01" "305.109";
   point "2023-05-01" "304.127";
   point "2023-04-01" "303.363";
   point "2023-03-01" "301.836";
   point "2023-02-01" "300.840";
   point "2023-01-01" "299.170";
   point "2022-12-01" "296.797";
   point "2022-11-01" "297.711"].

Definition cpi_series : jsval :=
  JObj [("name", JStr "Consumer Price Index for all Urban Consumers");
        ("interval", JStr "monthly"); ("data", JArr cpi_points)].

(** The same series listed oldest first. *)
Definition cpi_series_oldest_first : jsval :=
  JObj [("name", JStr "Consumer Price Index for all Urban Consumers");
        ("interval", JStr "monthly"); ("data", JArr (rev cpi_points))].

(** A network whose gateway answers 200 with an HTML page: the body is not
    JSON, and [axios] hands its text over as it is. *)
Definition html_page : string := "<html><body>Bad Gateway</body></html>".

Definition answers_html : network := answers (JStr html_page).

End Examples.

(* ===================================================================== *)
(** ** The rest of the server: health check and request sequences *)
(* ===================================================================== *)

Module Service.

(** GET /health: [server] is [process.env.SERVER_NAME || 'Unknown']. *)
Definition health (SERVER_NAME : option string) (now : Z) : http_response :=
  {| status := 200;
     body := JObj [("status", JStr "healthy");
                   ("timestamp", JStr (toISOString now));
                   ("server", JStr (env_or SERVER_NAME "Unknown"))] |}.

(** The five capabilities. *)
Inductive capability : Type := Rates | Quote | Coins | Indicator | Conversion.

Definition capability_of (q : request) : capability :=
  match q with
  | ExchangeRates _ => Rates
  | Stock _ => Quote
  | Crypto _ => Coins
  | Economic _ => Indicator
  | Convert _ _ _ => Conversion
  end.

(** One request reaching the server: what is asked, how the upstream
    behaves while it is handled, and when it arrives. *)
Record arrival : Type := { what : request; upstream : network; at_time : Z }.

(** The time at which the upstream request of an arrival resolves. *)
Definition resolved_at `{Engine} (env : environment) (a : arrival) : Z :=
  at_time a + Z.of_N (elapsed (upstream a (url_of env (what a)))).

(** The state after the server has handled the arrivals one after
    another. *)
Definition serve `{Engine} (env : environment) (arrivals : list arrival) (st : state)
  : state :=
  fold_left (fun st a => snd (handle env (what a) (upstream a) (at_time a) st))
    arrivals st.

(** The cache entry [e] under [key] is the payload some arrival fetched for
    that key, stored when its upstream request resolved, for five
    minutes. *)
Definition fetched_by `{Engine} (env : environment) (arrivals : list arrival)
    (key : string) (e : Store.entry) : Prop :=
  exists a,
    In a arrivals
    /\ cacheKey_of (what a) = key
    /\ outcome (upstream a (url_of env (what a))) = Fulfilled (Store.value e)
    /\ Store.storedAt e = resolved_at env a
    /\ Store.ttl e = 300000.

End Service.

(* ===================================================================== *)
(** ** The page script *)
(* ===================================================================== *)

Module Browser.

(** What the page's [makeRequest] can throw. *)
Inductive thrown : Type :=
| NewError (message : jsval)        (** [new Error(message)] *)
| TypeError (text : string)         (** a property read on [null] *)
| FetchFailed (reason : string)     (** [fetch] rejected: no HTTP answer *)
| NotJSON.                          (** [response.json()] rejected *)

Inductive attempt (A : Type) : Type :=
| Returned (a : A)
| Raised (e : thrown).
Arguments Returned {A} a.
Arguments Raised {A} e.

(** What [fetch(url)] followed by [response.json()] comes to: no answer, an
    answer whose body is not JSON, or the parsed body.  The HTTP status
    plays no part: [fetch] resolves on 404 and 500 alike. *)
Inductive fetched : Type :=
| Unreachable (reason : string)
| Unparsed
| Parsed (data : jsval).

(** [makeRequest(url)], given what the fetch comes to.  The [catch] logs
    and rethrows. *)
Definition makeRequest (f : fetched) : attempt jsval :=
  match f with
  | Unreachable reason => Raised (FetchFailed reason)
  | Unparsed => Raised NotJSON
  | Parsed data =>
      match get_field data "success" with
      | Throw text => Raised (TypeError text)
      | Normal success =>
          if truthy success then Returned data
          else Raised (NewError (js_or (get_field_opt data "error")
                                   (JStr "API request failed")))
      end
  end.

(** The server-status badge: its text and its two colours. *)
Record badge : Type := {
  textContent : string;
  backgroundColor : string;
  borderColor : string
}.

Definition offline : badge :=
  {| textContent := "Server: Offline ✗";
     backgroundColor := "rgba(231, 76, 60, 0.2)";
     borderColor := "#e74c3c" |}.

Section Page.
(** [`${v}`] for a value that is not text (the engine's [ToString]). *)
Variable ToString : jsval -> completion string.

Definition interpolate (v : jsval) : completion string :=
  match v with
  | JStr s => Normal s
  | _ => ToString v
  end.

(** [checkServerHealth()]: what the badge [elements.serverStatus] shows
    afterwards, when the page has one. *)
Definition checkServerHealth (f : fetched) : badge :=
  match makeRequest f with
  | Returned data =>
      match interpolate (js_or (get_field_opt data "server") (JStr "Online")) with
      | Normal name =>
          {| textContent := "Server: " +:+ name +:+ " ✓";
             backgroundColor := "rgba(46, 204, 113, 0.2)";
             borderColor := "#2ecc71" |}
      | Throw _ => offline
      end
  | Raised _ => offline
  end.

End Page.

End Browser.

(* ===================================================================== *)
(** ** The command-line tool *)
(* ===================================================================== *)

Module Cli.

(** What [makeRequest(url)] of the command-line tool comes to: the payload,
    or [new Error(message)]. *)
Inductive fetched : Type :=
| Data (data : jsval)
| Failed (message : jsval).

(** [error.response?.data?.message || error.message] *)
Definition error_argument (e : axios_error) : jsval :=
  js_or (match response e with
         | Some (_, data) => get_field_opt data "message"
         | None => JUndefined
         end)
        (JStr (message e)).

Definition makeRequest (r : reply) : fetched :=
  match outcome r with
  | Fulfilled data => Data data
  | Rejected error => Failed (error_argument error)
  end.

(** What the terminal shows: a question of [rl.question], or a line of
    [console.log]. *)
Inductive shown : Type :=
| Asked (prompt : string)
| Printed (line : string).

Record expense : Type := { name : string; amount : float }.

Definition newline : string := String "010"%char EmptyString.
Definition quote : string := String "034"%char EmptyString.

(** [x || 0] on a number *)
Definition or_zero (x : float) : float :=
  if PrimFloat.is_zero x || PrimFloat.is_nan x then PrimFloat.zero else x.

Section Budget.
Context `{Engine}.
(** [formatCurrency(amount)]: [Intl.NumberFormat] for US dollars. *)
Variable formatCurrency : float -> string.

(** [expenses.reduce((sum, exp) => sum + exp.amount, 0)] *)
Definition totalExpenses (expenses : list expense) : float :=
  fold_left (fun sum exp => PrimFloat.add sum (amount exp)) expenses PrimFloat.zero.

(** [monthlyIncome > 0 ? (remaining / monthlyIncome) * 100 : 0] *)
Definition savingsRate (monthlyIncome remaining : float) : float :=
  if PrimFloat.ltb PrimFloat.zero monthlyIncome
  then PrimFloat.mul (PrimFloat.div remaining monthlyIncome) 100
  else PrimFloat.zero.

Definition warning : string := "⚠️  Warning: Your expenses exceed your income!".
Definition great_job : string := "🎉 Great job! You're saving 20% or more of your income.".
Definition good_start : string := "👍 Good start! Try to increase your savings rate to 20%.".
Definition room_for_improvement : string := "📈 Room for improvement! Aim to save at least 10% of your income.".

(** The line printed under "Financial Advice". *)
Definition advice (remaining rate : float) : string :=
  if PrimFloat.ltb remaining PrimFloat.zero then warning
  else if PrimFloat.leb 20 rate then great_job
  else if PrimFloat.leb 10 rate then good_start
  else room_for_improvement.

(** [calculateBudget()]: everything it prints. *)
Definition calculateBudget (monthlyIncome : float) (expenses : list expense) : list shown :=
  let total := totalExpenses expenses in
  let remaining := PrimFloat.sub monthlyIncome total in
  let rate := savingsRate monthlyIncome remaining in
  ([Printed (newline +:+ "💰 Budget Analysis:");
   Printed "==================";
   Printed ("Monthly Income: " +:+ formatCurrency monthlyIncome);
   Printed ("Total Expenses: " +:+ formatCurrency total);
   Printed ("Remaining: " +:+ formatCurrency remaining +:+ " "
              +:+ (if PrimFloat.leb PrimFloat.zero remaining then "✅" else "❌"));
   Printed ("Savings Rate: " +:+ toFixed rate 1 +:+ "%")]
  ++ (match expenses with
      | [] => []
      | _ =>
          Printed (newline +:+ "📋 Expense Breakdown:")
          :: map (fun exp => Printed ("  " +:+ name exp +:+ ": "
                                        +:+ formatCurrency (amount exp)))
               expenses
      end)
  ++ [Printed (newline +:+ "💡 Financial Advice:");
      Printed (advice remaining rate);
      Printed ""])%list.

Definition name_prompt : string :=
  "Enter expense name (or " +:+ quote +:+ "done" +:+ quote +:+ " to finish): ".

(** [addExpense()]: the loop that asks for a name and an amount until the
    name is "done"; [answers] is what is typed from here on, [expenses]
    what has been collected so far.  The result is what the terminal shows
    and, once [calculateBudget] has run, the expenses it ran on; [None]
    means the tool is still waiting for input. *)
Fixpoint addExpense (monthlyIncome : float) (answers : list string)
    (expenses : list expense) : list shown * option (list expense) :=
  match answers with
  | [] => ([Asked name_prompt], None)
  | typed_name :: rest =>
      if String.eqb (toLowerCase typed_name) "done" then
        (Asked name_prompt :: calculateBudget monthlyIncome expenses, Some expenses)
      else
        let amount_prompt := "Enter amount for " +:+ typed_name +:+ ": $" in
        match rest with
        | [] => ([Asked name_prompt; Asked amount_prompt], None)
        | typed_amount :: rest' =>
            let expenseAmount := or_zero (parseFloat typed_amount) in
            let expenses' :=
              if PrimFloat.ltb PrimFloat.zero expenseAmount
              then (expenses ++ [{| name := typed_name; amount := expenseAmount |}])%list
              else expenses in
            let '(more, done) := addExpense monthlyIncome rest' expenses' in
            (Asked name_prompt :: Asked amount_prompt :: more, done)
        end
  end.

(** [budgetCalculator()], given everything that is typed. *)
Definition budgetCalculator (answers : list string) : list shown * option (list expense) :=
  match answers with
  | [] => ([Asked "Enter monthly income: $"], None)
  | income :: rest =>
      let monthlyIncome := or_zero (parseFloat income) in
      let '(more, done) := addExpense monthlyIncome rest [] in
      (Asked "Enter monthly income: $"
         :: Printed (newline +:+ "Enter your monthly expenses (type " +:+ quote
                       +:+ "done" +:+ quote +:+ " when finished):")
         :: more,
       done)
  end.

(** What the loop lets in as an expense. *)
Definition accepted (e : expense) : Prop :=
  PrimFloat.ltb PrimFloat.zero (amount e) = true
  /\ toLowerCase (name e) <> "done".

(** The line of an expense in the printed breakdown. *)
Definition breakdown_line (e : expense) : shown :=
  Printed ("  " +:+ name e +:+ ": " +:+ formatCurrency (amount e)).

End Budget.

End Cli.

(* ===================================================================== *)
(** ** A morning of requests *)
(* ===================================================================== *)

Module Scenario.

(** A quote is fetched; a minute later the coin prices time out; another
    minute later the same quote is asked for in lower case while the
    upstream is down. *)
Definition morning : list Service.arrival :=
  [ {| Service.what := Stock "AAPL";
       Service.upstream := Examples.answers Examples.aapl_quote;
       Service.at_time := Examples.t0 |};
    {| Service.what := Crypto None;
       Service.upstream := Examples.times_out;
       Service.at_time := Examples.t0 + 60000 |};
    {| Service.what := Stock "aapl";
       Service.upstream := Examples.times_out;
       Service.at_time := Examples.t0 + 120000 |} ].

(** A stand-in for [Intl.NumberFormat] when running the command-line tool:
    a dollar sign and two decimals. *)
Definition dollars (x : float) : string := "$" +:+ Ecma.toFixed x 2.

(** What a user types into the budget calculator: an income, then rent, a
    refund entered as a negative amount, an amount that is not a number, and
    the word that ends the list. *)
Definition typed : list string :=
  ["3000"; "Rent"; "1200"; "Refund"; "-5"; "Food"; "abc"; "Done"; "Cinema"].

End Scenario.

(* ===================================================================== *)
(** ** Basic facts *)
(* ===================================================================== *)

(** *** The store *)

Lemma get_set_same (key : string) (v : jsval) (at_ now : Z) (c : gmap string Store.entry) :
  now < at_ + Store.stdTTL * 1000 ->
  Store.get key now (Store.set key v at_ c) = v.
Proof.
  intros Hlt. unfold Store.get, Store.set.
  rewrite lookup_insert_eq. unfold Store.servable. cbn.
  destruct (Z.ltb_spec now (at_ + Store.stdTTL * 1000)); [reflexivity | lia].
Qed.

Lemma get_set_other (key key' : string) (v : jsval) (at_ now : Z)
    (c : gmap string Store.entry) :
  key <> key' ->
  Store.get key' now (Store.set key v at_ c) = Store.get key' now c.
Proof.
  intros Hne. unfold Store.get, Store.set. now rewrite lookup_insert_ne.
Qed.

(** An entry that cannot be served now cannot be served later either; a
    stored value that reads as false keeps doing so. *)
Lemma miss_persists (key : string) (now later : Z) (c : gmap string Store.entry) :
  now <= later ->
  truthy (Store.get key now c) = false ->
  truthy (Store.get key later c) = false.
Proof.
  intros Hle. unfold Store.get. destruct (c !! key) as [e|]; [|reflexivity].
  unfold Store.servable.
  destruct (Z.ltb_spec now (Store.storedAt e + Store.ttl e));
    destruct (Z.ltb_spec later (Store.storedAt e + Store.ttl e));
    try reflexivity; try tauto; lia.
Qed.

(** *** [makeAPIRequest], by cases *)

Lemma makeAPIRequest_spec (net : network) (url key : string) (now : Z) (st : state) :
  api_call net url key now st (makeAPIRequest net url key now st).
Proof.
  unfold makeAPIRequest.
  destruct (truthy (Store.get key now (cache st))) eqn:Hhit.
  - now apply call_hit.
  - destruct (outcome (net url)) as [data|error] eqn:Hout.
    + now apply call_fetched.
    + now apply call_failed.
Qed.

Lemma makeAPIRequest_hit (net : network) (url key : string) (now : Z) (st : state) :
  cache_hit key now st = true ->
  makeAPIRequest net url key now st
  = (ApiSuccess (Store.get key now (cache st)) true, st, now).
Proof. unfold cache_hit, makeAPIRequest. now intros ->. Qed.

Lemma makeAPIRequest_fetched (net : network) (url key : string) (now : Z)
    (st : state) (data : jsval) :
  cache_hit key now st = false ->
  outcome (net url) = Fulfilled data ->
  makeAPIRequest net url key now st
  = (ApiSuccess data false,
     {| cache := Store.set key data (now + Z.of_N (elapsed (net url))) (cache st);
        requested := requested st ++ [url] |},
     now + Z.of_N (elapsed (net url))).
Proof. unfold cache_hit, makeAPIRequest. now intros -> ->. Qed.

Lemma makeAPIRequest_failed (net : network) (url key : string) (now : Z)
    (st : state) (error : axios_error) :
  cache_hit key now st = false ->
  outcome (net url) = Rejected error ->
  makeAPIRequest net url key now st
  = (ApiFailure (error_text error) (error_status error),
     {| cache := cache st; requested := requested st ++ [url] |},
     now + Z.of_N (elapsed (net url))).
Proof. unfold cache_hit, makeAPIRequest. now intros -> ->. Qed.

(** The message of a failure is never empty: the chain of [||] ends in a
    non-empty literal. *)
Lemma error_text_truthy (e : axios_error) : truthy (error_text e) = true.
Proof.
  unfold error_text, js_or.
  destruct (truthy (match response e with
                    | Some (_, data) => get_field_opt data "message"
                    | None => JUndefined
                    end)) eqn:H1.
  - now rewrite H1.
  - destruct (truthy (JStr (message e))) eqn:H2; [now rewrite H2 | reflexivity].
Qed.

(** *** The handlers, through [makeAPIRequest] *)

Lemma handle_unfold `{Engine} (env : environment) (q : request)
    (net : network) (now : Z) (st : state) :
  handle env q net now st
  = let '(result, st', later) :=
      makeAPIRequest net (url_of env q) (cacheKey_of q) now st in
    (answer env q result later, st').
Proof. destruct q; reflexivity. Qed.

Lemma handle_hit `{Engine} (env : environment) (q : request)
    (net : network) (now : Z) (st : state) :
  cache_hit (cacheKey_of q) now st = true ->
  handle env q net now st
  = (answer env q (ApiSuccess (Store.get (cacheKey_of q) now (cache st)) true) now, st).
Proof. intros Hhit. now rewrite handle_unfold, makeAPIRequest_hit. Qed.

Lemma handle_fetched `{Engine} (env : environment) (q : request)
    (net : network) (now : Z) (st : state) (data : jsval) :
  cache_hit (cacheKey_of q) now st = false ->
  outcome (net (url_of env q)) = Fulfilled data ->
  handle env q net now st
  = (answer env q (ApiSuccess data false) (now + Z.of_N (elapsed (net (url_of env q)))),
     {| cache := Store.set (cacheKey_of q) data
                   (now + Z.of_N (elapsed (net (url_of env q)))) (cache st);
        requested := requested st ++ [url_of env q] |}).
Proof.
  intros Hmiss Hful.
  now rewrite handle_unfold, (makeAPIRequest_fetched _ _ _ _ _ _ Hmiss Hful).
Qed.

Lemma handle_failed `{Engine} (env : environment) (q : request)
    (net : network) (now : Z) (st : state) (error : axios_error) :
  cache_hit (cacheKey_of q) now st = false ->
  outcome (net (url_of env q)) = Rejected error ->
  handle env q net now st
  = (answer env q (ApiFailure (error_text error) (error_status error))
       (now + Z.of_N (elapsed (net (url_of env q)))),
     {| cache := cache st; requested := requested st ++ [url_of env q] |}).
Proof.
  intros Hmiss Hrej.
  now rewrite handle_unfold, (makeAPIRequest_failed _ _ _ _ _ _ Hmiss Hrej).
Qed.

(** After any miss the upstream request has been logged, whatever it
    returned. *)
Lemma miss_requests_upstream `{Engine} (env : environment) (q : request)
    (net : network) (now : Z) (st : state) :
  cache_hit (cacheKey_of q) now st = false ->
  requested (snd (handle env q net now st)) = (requested st ++ [url_of env q])%list.
Proof.
  intros Hmiss. rewrite handle_unfold.
  destruct (makeAPIRequest_spec net (url_of env q) (cacheKey_of q) now st);
    try reflexivity; congruence.
Qed.

(** [try { ... } catch] always completes normally. *)
Lemma try_catch_normal {A : Type} (body : completion A) (handler : A) :
  exists a, try_catch body handler = Normal a.
Proof. destruct body; cbn; eauto. Qed.

Lemma answer_normal `{Engine} (env : environment) (q : request)
    (result : api_result) (later : Z) :
  exists r, answer env q result later = Normal r.
Proof. destruct q; cbn [answer]; apply try_catch_normal. Qed.

(** A failed call is answered with a failure envelope carrying the error
    text. *)
Lemma answer_failure `{Engine} (env : environment) (q : request)
    (error : jsval) (code later : Z) :
  exists r, answer env q (ApiFailure error code) later = Normal r
            /\ failed r = true
            /\ (truthy error = true -> truthy (envelope_field r "error") = true).
Proof.
  destruct q; cbn; eexists; (split; [reflexivity|]); split;
    first [reflexivity | intros; assumption | intros; reflexivity].
Qed.

Import Examples.

(* ===================================================================== *)
(** ** Failures and the cache *)
(* ===================================================================== *)

(** What the stock route answers when the payload is an object whose quote is
    missing or empty. *)
Lemma stock_empty_quote `{Engine} (symbol : string) (props : list (string * jsval))
    (cached : bool) (later : Z) :
  (let quote := default JUndefined (own_property props "Global Quote") in
   truthy quote && has_own_keys quote = false) ->
  stock_answer symbol (ApiSuccess (JObj props) cached) later
  = Normal (send_error 404
              (JStr ("Stock symbol '" +:+ toUpperCase symbol +:+ "' not found or invalid"))).
Proof.
  intros Hquote. unfold stock_answer, stock_respond.
  cbn [get_field bind try_catch]. cbn zeta in Hquote. now rewrite Hquote.
Qed.

(** C1 (amended).  On a cache miss, a rejected upstream request (transport
    error, timeout, non-2xx status) is answered with a failure envelope and
    writes nothing to the cache, so the next identical call asks upstream
    again.  A fulfilled request is cached before the handler looks at the
    payload: a stock reply whose payload object has a missing or empty quote
    is answered 404 and nevertheless stored under the computed key, and an
    identical call before the TTL runs out gets the same 404 from the cache
    without any upstream request. *)
Theorem C1_rejected_uncached_fulfilled_cached `{Engine} (env : environment)
    (q : request) (net net2 : network) (now now2 : Z) (st : state) :
  cache_hit (cacheKey_of q) now st = false ->
  let first := handle env q net now st in
  let second := handle env q net2 now2 (snd first) in
  let stored_at := now + Z.of_N (elapsed (net (url_of env q))) in
  (forall error,
      outcome (net (url_of env q)) = Rejected error ->
      now <= now2 ->
      (exists r, fst first = Normal r /\ failed r = true)
      /\ cache (snd first) = cache st
      /\ requested (snd second)
         = (requested st ++ [url_of env q; url_of env q])%list)
  /\
  (forall symbol props,
      q = Stock symbol ->
      outcome (net (url_of env q)) = Fulfilled (JObj props) ->
      (let quote := default JUndefined (own_property props "Global Quote") in
       truthy quote && has_own_keys quote = false) ->
      now2 < stored_at + Store.stdTTL * 1000 ->
      (exists r, fst first = Normal r /\ failed r = true /\ status r = 404
                 /\ fst second = Normal r)
      /\ cache (snd first) = Store.set (cacheKey_of q) (JObj props) stored_at (cache st)
      /\ requested (snd second) = requested (snd first)).
Proof.
  intros Hmiss first second stored_at. split.
  - intros error Hrej Hle.
    pose proof (handle_failed env q net now st error Hmiss Hrej) as Hfirst.
    fold first in Hfirst.
    destruct (answer_failure env q (error_text error) (error_status error)
                (now + Z.of_N (elapsed (net (url_of env q))))) as (r & Hr & Hf & _).
    split; [exists r; rewrite Hfirst; cbn [fst]; now split|].
    split; [now rewrite Hfirst|].
    unfold second. rewrite miss_requests_upstream.
    + rewrite Hfirst. cbn [snd requested]. now rewrite <- app_assoc.
    + rewrite Hfirst. unfold cache_hit in *. cbn [snd cache].
      now apply miss_persists with (now := now).
  - intros symbol props -> Hful Hquote Hlt.
    pose proof (handle_fetched env (Stock symbol) net now st _ Hmiss Hful) as Hfirst.
    fold first stored_at in Hfirst.
    cbn [answer] in Hfirst. rewrite (stock_empty_quote _ _ _ _ Hquote) in Hfirst.
    assert (Hval : Store.get (cacheKey_of (Stock symbol)) now2 (cache (snd first))
                   = JObj props).
    { rewrite Hfirst. cbn [snd cache]. now rewrite get_set_same. }
    assert (Hhit : cache_hit (cacheKey_of (Stock symbol)) now2 (snd first) = true).
    { unfold cache_hit. now rewrite Hval. }
    pose proof (handle_hit env (Stock symbol) net2 now2 (snd first) Hhit) as Hsecond.
    fold second in Hsecond. rewrite Hval in Hsecond.
    cbn [answer] in Hsecond. rewrite (stock_empty_quote _ _ _ _ Hquote) in Hsecond.
    rewrite Hsecond. rewrite Hfirst. cbn [fst snd cache].
    split; [|split; reflexivity].
    eexists. repeat split; reflexivity.
Qed.

(** C1, as stated, fails: the quote provider answers an unknown symbol with
    an empty quote; the gateway answers 404, yet the payload is now in the
    cache, and one second later the same request is answered 404 from the
    cache although upstream would no longer answer at all. *)
Lemma C1_empty_quote_is_cached :
  fst (handle (H := Ecma.engine) env_free (Stock "ZZZZ") (answers empty_quote) t0 initial)
  = Normal {| status := 404;
              body := JObj [("success", JBool false);
                            ("error", JStr "Stock symbol 'ZZZZ' not found or invalid")] |}
  /\ Store.get "stock_ZZZZ" (t0 + 1000)
       (cache (snd (handle (H := Ecma.engine) env_free (Stock "ZZZZ")
                      (answers empty_quote) t0 initial)))
     = empty_quote
  /\ handle (H := Ecma.engine) env_free (Stock "ZZZZ") times_out (t0 + 1000)
       (snd (handle (H := Ecma.engine) env_free (Stock "ZZZZ")
               (answers empty_quote) t0 initial))
     = handle (H := Ecma.engine) env_free (Stock "ZZZZ") (answers empty_quote) t0 initial
  /\ requested (snd (handle (H := Ecma.engine) env_free (Stock "ZZZZ")
                       (answers empty_quote) t0 initial))
     = ["https://www.alphavantage.co/query?function=GLOBAL_QUOTE&symbol=ZZZZ&apikey=demo"].
Proof. vm_compute. repeat split. Qed.

(** The theorem at work on the quote for ZZZZ: after a timeout the cache is
    untouched and the retry goes upstream; after an empty quote the payload
    sits in the cache and the retry does not go upstream. *)
Lemma C1_rejected_uncached_fulfilled_cached_witness :
  cache_hit (cacheKey_of (H := Ecma.engine) (Stock "ZZZZ")) t0 initial = false
  /\ requested
       (snd (handle (H := Ecma.engine) env_free (Stock "ZZZZ") times_out (t0 + 20000)
               (snd (handle (H := Ecma.engine) env_free (Stock "ZZZZ") times_out t0 initial))))
     = ([] ++ [url_of (H := Ecma.engine) env_free (Stock "ZZZZ");
               url_of (H := Ecma.engine) env_free (Stock "ZZZZ")])%list
  /\ requested
       (snd (handle (H := Ecma.engine) env_free (Stock "ZZZZ") times_out (t0 + 1000)
               (snd (handle (H := Ecma.engine) env_free (Stock "ZZZZ")
                       (answers empty_quote) t0 initial))))
     = requested (snd (handle (H := Ecma.engine) env_free (Stock "ZZZZ")
                         (answers empty_quote) t0 initial)).
Proof.
  split; [reflexivity|]. split.
  - refine (proj2 (proj2 (proj1
      (C1_rejected_uncached_fulfilled_cached (H := Ecma.engine) env_free (Stock "ZZZZ")
         times_out times_out t0 (t0 + 20000) initial eq_refl) _ eq_refl _))).
    unfold t0. lia.
  - refine (proj2 (proj2 (proj2
      (C1_rejected_uncached_fulfilled_cached (H := Ecma.engine) env_free (Stock "ZZZZ")
         (answers empty_quote) times_out t0 (t0 + 1000) initial eq_refl)
      "ZZZZ" [("Global Quote", JObj [])] eq_refl eq_refl eq_refl _))).
    reflexivity.
Defined.

(* ===================================================================== *)
(** ** Currency conversion *)
(* ===================================================================== *)

Section ConvertFacts.
Context `{Engine}.

(** The successful branch of the conversion route. *)
Lemma convert_answer_success (env : environment) (from to amount : string)
    (data : jsval) (cached : bool) (later : Z) (rate : jsval) (r : float) :
  conversionRate_of env to data = Normal rate ->
  truthy rate = true ->
  ToNumber rate = Normal r ->
  convert_answer env from to amount (ApiSuccess data cached) later
  = Normal (send_success
              (convert_data from to amount rate
                 (toFixed (PrimFloat.mul (parseFloat amount) r) 2))
              cached later).
Proof.
  intros Hrate Htruthy Hnum.
  unfold convert_answer, convert_respond, convertedAmount.
  rewrite Hrate. cbn [bind]. rewrite Htruthy, Hnum. reflexivity.
Qed.

(** A conversion envelope reports success only on that branch. *)
Lemma convert_answer_success_inv (env : environment) (from to amount : string)
    (result : api_result) (later : Z) (resp : http_response) :
  convert_answer env from to amount result later = Normal resp ->
  succeeded resp = true ->
  exists data cached rate r,
    result = ApiSuccess data cached
    /\ conversionRate_of env to data = Normal rate
    /\ truthy rate = true
    /\ ToNumber rate = Normal r
    /\ resp = send_success
                (convert_data from to amount rate
                   (toFixed (PrimFloat.mul (parseFloat amount) r) 2))
                cached later.
Proof.
  unfold convert_answer, convert_respond, convertedAmount.
  destruct result as [data cached | error code].
  - destruct (conversionRate_of env to data) as [rate|] eqn:Hrate; cbn [bind try_catch].
    + destruct (truthy rate) eqn:Htruthy.
      * destruct (ToNumber rate) as [r|] eqn:Hnum; cbn [bind try_catch].
        -- intros [= <-] _. exists data, cached, rate, r. repeat split; assumption.
        -- intros [= <-] Hs. discriminate Hs.
      * intros [= <-] Hs. discriminate Hs.
    + intros [= <-] Hs. discriminate Hs.
  - cbn [try_catch]. intros [= <-] Hs. discriminate Hs.
Qed.

End ConvertFacts.

(** C2 (amended).  A conversion whose two currencies are equal is not
    answered locally: it is handled like any other pair.  On a cache miss the
    gateway sends one upstream request for the pair; when that request is
    rejected the conversion fails; when it is fulfilled the payload is
    stored under [convert_<c>_<c>], and the envelope carries the rate found
    in the payload and
    [result = parseFloat((parseFloat(amount) * rate).toFixed(2))]. *)
Theorem C2_same_currency_asks_upstream `{Engine} (env : environment)
    (c amount : string) (net : network) (now : Z) (st : state) :
  cache_hit (convert_cacheKey c c) now st = false ->
  let stored_at := now + Z.of_N (elapsed (net (convert_url env c c))) in
  requested (snd (handle env (Convert c c amount) net now st))
  = (requested st ++ [convert_url env c c])%list
  /\ (forall error,
        outcome (net (convert_url env c c)) = Rejected error ->
        exists r, fst (handle env (Convert c c amount) net now st) = Normal r
                  /\ failed r = true)
  /\ (forall data rate r,
        outcome (net (convert_url env c c)) = Fulfilled data ->
        conversionRate_of env c data = Normal rate ->
        truthy rate = true ->
        ToNumber rate = Normal r ->
        handle env (Convert c c amount) net now st
        = (Normal {| status := 200;
                     body :=
                       JObj [("success", JBool true);
                             ("data",
                              JObj [("from", JStr c); ("to", JStr c);
                                    ("amount", JNum (parseFloat amount));
                                    ("rate", rate);
                                    ("result",
                                     JNum (parseFloat
                                             (toFixed
                                                (PrimFloat.mul (parseFloat amount) r) 2)))]);
                             ("cached", JBool false);
                             ("timestamp", JStr (toISOString stored_at))] |},
           {| cache := Store.set (convert_cacheKey c c) data stored_at (cache st);
              requested := requested st ++ [convert_url env c c] |})).
Proof.
  intros Hmiss stored_at. split; [|split].
  - now apply (miss_requests_upstream env (Convert c c amount)).
  - intros error Hrej.
    rewrite (handle_failed env (Convert c c amount) net now st error Hmiss Hrej).
    destruct (answer_failure env (Convert c c amount) (error_text error)
                (error_status error) stored_at) as (r & Hr & Hf & _).
    exists r. now split.
  - intros data rate r Hful Hrate Htruthy Hnum.
    rewrite (handle_fetched env (Convert c c amount) net now st data Hmiss Hful).
    cbn [answer]. now rewrite (convert_answer_success _ _ _ _ _ _ _ _ _ Hrate Htruthy Hnum).
Qed.

(** C2, as stated, fails: converting 100 USD to USD on a cold cache sends a
    request to the exchange-rate provider and fills the cache slot
    [convert_USD_USD]; when the provider times out the conversion fails. *)
Lemma C2_usd_to_usd_asks_upstream :
  requested (snd (handle (H := Ecma.engine) env_free (Convert "USD" "USD" "100")
                    (answers usd_rates) t0 initial))
  = ["https://api.exchangerate-api.com/v4/latest/USD"]
  /\ Store.get "convert_USD_USD" (t0 + 1000)
       (cache (snd (handle (H := Ecma.engine) env_free (Convert "USD" "USD" "100")
                      (answers usd_rates) t0 initial)))
     = usd_rates
  /\ fst (handle (H := Ecma.engine) env_free (Convert "USD" "USD" "100") times_out t0 initial)
     = Normal {| status := 500;
                 body := JObj [("success", JBool false);
                               ("error", JStr "timeout of 10000ms exceeded")] |}.
Proof. vm_compute. repeat split. Qed.

(** The theorem at work on 100 USD to USD against the free provider's
    table. *)
Lemma C2_same_currency_asks_upstream_witness :
  cache_hit (convert_cacheKey "USD" "USD") t0 initial = false
  /\ fst (handle (H := Ecma.engine) env_free (Convert "USD" "USD" "100")
            (answers usd_rates) t0 initial)
     = Normal {| status := 200;
                 body := JObj [("success", JBool true);
                               ("data",
                                JObj [("from", JStr "USD"); ("to", JStr "USD");
                                      ("amount", JNum 100); ("rate", JNum 1);
                                      ("result", JNum 100)]);
                               ("cached", JBool false);
                               ("timestamp", JStr "2023-11-14T22:13:20.120Z")] |}.
Proof.
  split; [reflexivity|].
  exact (f_equal fst
           (proj2 (proj2
              (C2_same_currency_asks_upstream (H := Ecma.engine) env_free "USD" "100"
                 (answers usd_rates) t0 initial eq_refl))
              usd_rates (JNum 1) 1%float eq_refl eq_refl eq_refl eq_refl)).
Defined.

(* ===================================================================== *)
(** ** The shape of the success envelopes *)
(* ===================================================================== *)




(** A stock envelope reports success only when the payload has a non-empty
    quote, and then its data are the quote's fields as they came. *)
Lemma stock_answer_success_inv `{Engine} (symbol : string) (result : api_result)
    (later : Z) (resp : http_response) :
  stock_answer symbol result later = Normal resp ->
  succeeded resp = true ->
  exists data cached quote,
    result = ApiSuccess data cached
    /\ get_field data "Global Quote" = Normal quote
    /\ truthy quote && has_own_keys quote = true
    /\ resp = send_success
                (JObj [("symbol", get_field_opt quote "01. symbol");
                       ("price", get_field_opt quote "05. price");
                       ("change", get_field_opt quote "09. change");
                       ("changePercent", get_field_opt quote "10. change percent");
                       ("volume", get_field_opt quote "06. volume");
                       ("lastUpdate", get_field_opt quote "07. latest trading day")])
                cached later.
Proof.
  unfold stock_answer, stock_respond.
  destruct result as [data cached | error code].
  - destruct (get_field data "Global Quote") as [quote|] eqn:Hquote; cbn [bind try_catch].
    + destruct (truthy quote && has_own_keys quote) eqn:Hok.
      * intros Hr _. exists data, cached, quote.
        repeat split; try assumption.
        destruct quote; try discriminate Hok; cbn in Hr; now injection Hr as <-.
      * intros [= <-] Hs. discriminate Hs.
    + intros [= <-] Hs. discriminate Hs.
  - cbn [try_catch]. intros [= <-] Hs. discriminate Hs.
Qed.

(** C5 (amended).  In a successful conversion envelope [amount] and
    [result] are numbers, the outputs of [parseFloat]; [rate] is the value
    found in the provider's payload, as it came.  In a successful stock
    envelope every field, [price], [change] and [volume] included, is the
    corresponding field of the provider's quote as it came: text stays
    text. *)
Theorem C5_parsed_amounts_verbatim_quotes `{Engine} (env : environment) :
  (forall from to amount net now st r,
      fst (handle env (Convert from to amount) net now st) = Normal r ->
      succeeded r = true ->
      is_number (data_field r "amount") = true
      /\ is_number (data_field r "result") = true
      /\ exists data cached st' later,
           makeAPIRequest net (convert_url env from to) (convert_cacheKey from to) now st
           = (ApiSuccess data cached, st', later)
           /\ conversionRate_of env to data = Normal (data_field r "rate"))
  /\
  (forall symbol net now st r,
      fst (handle env (Stock symbol) net now st) = Normal r ->
      succeeded r = true ->
      exists data cached st' later quote,
        makeAPIRequest net (stock_url env symbol) (stock_cacheKey symbol) now st
        = (ApiSuccess data cached, st', later)
        /\ get_field data "Global Quote" = Normal quote
        /\ data_field r "price" = get_field_opt quote "05. price"
        /\ data_field r "change" = get_field_opt quote "09. change"
        /\ data_field r "volume" = get_field_opt quote "06. volume"
        /\ data_field r "symbol" = get_field_opt quote "01. symbol"
        /\ data_field r "changePercent" = get_field_opt quote "10. change percent"
        /\ data_field r "lastUpdate" = get_field_opt quote "07. latest trading day").
Proof.
  split.
  - intros from to amount net now st r Hr Hs.
    rewrite handle_unfold in Hr. cbn [url_of cacheKey_of] in Hr.
    destruct (makeAPIRequest net (convert_url env from to) (convert_cacheKey from to) now st)
      as [[result st'] later].
    cbn [fst answer] in Hr.
    destruct (convert_answer_success_inv _ _ _ _ _ _ _ Hr Hs)
      as (data & cached & rate & x & -> & Hrate & _ & _ & ->).
    split; [reflexivity|]. split; [reflexivity|].
    exists data, cached, st', later. split; [reflexivity | exact Hrate].
  - intros symbol net now st r Hr Hs.
    rewrite handle_unfold in Hr. cbn [url_of cacheKey_of] in Hr.
    destruct (makeAPIRequest net (stock_url env symbol) (stock_cacheKey symbol) now st)
      as [[result st'] later].
    cbn [fst answer] in Hr.
    destruct (stock_answer_success_inv _ _ _ _ Hr Hs)
      as (data & cached & quote & -> & Hquote & _ & ->).
    exists data, cached, st', later, quote.
    split; [reflexivity|]. split; [exact Hquote|]. repeat split.
Qed.

(** C5, as stated, fails for the stock quote: the provider sends its figures
    as text, and [price], [change] and [volume] reach the envelope as
    text. *)
Lemma C5_stock_price_is_text :
  fst (handle (H := Ecma.engine) env_free (Stock "aapl") (answers aapl_quote) t0 initial)
  = Normal {| status := 200;
              body := JObj [("success", JBool true);
                            ("data",
                             JObj [("symbol", JStr "AAPL"); ("price", JStr "189.8400");
                                   ("change", JStr "2.4000");
                                   ("changePercent", JStr "1.2804%");
                                   ("volume", JStr "41342338");
                                   ("lastUpdate", JStr "2023-11-14")]);
                            ("cached", JBool false);
                            ("timestamp", JStr "2023-11-14T22:13:20.120Z")] |}
  /\ is_number (JStr "189.8400") = false
  /\ is_number (JStr "2.4000") = false
  /\ is_number (JStr "41342338") = false.
Proof. vm_compute. repeat split. Qed.

(** The theorem at work on 8 USD to EUR through the paid provider. *)
Lemma C5_parsed_amounts_verbatim_quotes_witness :
  is_number (JNum 8) = true
  /\ is_number (JNum 7) = true
  /\ exists data cached st' later,
       makeAPIRequest (answers usd_eur_pair) (convert_url env_paid "USD" "EUR")
         (convert_cacheKey "USD" "EUR") t0 initial
       = (ApiSuccess data cached, st', later)
       /\ conversionRate_of (H := Ecma.engine) env_paid "EUR" data = Normal (JNum 0.875).
Proof.
  exact (proj1 (C5_parsed_amounts_verbatim_quotes (H := Ecma.engine) env_paid)
           "USD" "EUR" "8" (answers usd_eur_pair) t0 initial _ eq_refl eq_refl).
Defined.

(* ===================================================================== *)
(** ** Cache keys *)
(* ===================================================================== *)

(** The stock and indicator routes upper-case their parameter before they
    build the key, so two parameters with the same upper-case form, as
    [aapl] and [AAPL], share a key. *)
Lemma stock_key_ignores_case `{Engine} (a b : string) :
  toUpperCase a = toUpperCase b ->
  cacheKey_of (Stock a) = cacheKey_of (Stock b)
  /\ cacheKey_of (Economic a) = cacheKey_of (Economic b).
Proof.
  intros Heq. cbn [cacheKey_of]. unfold stock_cacheKey, economic_cacheKey.
  now rewrite Heq.
Qed.

(** A request leaves the entries under all other keys alone. *)
Lemma other_key_untouched `{Engine} (env : environment) (q : request)
    (net : network) (now : Z) (st : state) (key : string) (t : Z) :
  cacheKey_of q <> key ->
  Store.get key t (cache (snd (handle env q net now st))) = Store.get key t (cache st).
Proof.
  intros Hne. rewrite handle_unfold.
  destruct (makeAPIRequest_spec net (url_of env q) (cacheKey_of q) now st);
    cbn [snd cache]; try reflexivity.
  now apply get_set_other.
Qed.

(** C4, on the conversion and exchange-rate routes: the currency codes go
    into the key as typed.  [usd]/[eur] and [USD]/[EUR] get two keys, the
    second request, one second after the first, is sent upstream again, and
    its envelope is not marked as cached. *)
Theorem C4_currency_case_splits_cache :
  cacheKey_of (H := Ecma.engine) (Convert "usd" "eur" "100") = "convert_usd_eur"
  /\ cacheKey_of (H := Ecma.engine) (Convert "USD" "EUR" "100") = "convert_USD_EUR"
  /\ cacheKey_of (H := Ecma.engine) (ExchangeRates (Some "usd")) = "exchange_usd"
  /\ cacheKey_of (H := Ecma.engine) (ExchangeRates (Some "USD")) = "exchange_USD"
  /\ handle (H := Ecma.engine) env_paid (Convert "USD" "EUR" "100") (answers usd_eur_pair)
       (t0 + 1000)
       (snd (handle (H := Ecma.engine) env_paid (Convert "usd" "eur" "100")
               (answers usd_eur_pair) t0 initial))
     = (Normal {| status := 200;
                  body := JObj [("success", JBool true);
                                ("data",
                                 JObj [("from", JStr "USD"); ("to", JStr "EUR");
                                       ("amount", JNum 100); ("rate", JNum 0.875);
                                       ("result", JNum 87.5)]);
                                ("cached", JBool false);
                                ("timestamp", JStr "2023-11-14T22:13:21.120Z")] |},
        {| cache := Store.set "convert_USD_EUR" usd_eur_pair (t0 + 1120)
                      (Store.set "convert_usd_eur" usd_eur_pair (t0 + 120) ∅);
           requested := ["https://v6.exchangerate-api.com/v6/k3y/pair/usd/eur";
                         "https://v6.exchangerate-api.com/v6/k3y/pair/USD/EUR"] |}).
Proof. vm_compute. repeat split. Qed.

(* ===================================================================== *)
(** ** Repeated requests *)
(* ===================================================================== *)

(** Once a payload that reads as true has been fetched, an identical request
    before the TTL runs out is answered from the cache: no upstream request,
    same payload, [cached] set. *)
Lemma repeat_is_served_from_cache `{Engine} (env : environment) (q : request)
    (net net2 : network) (now now2 : Z) (st : state) (data : jsval) :
  cache_hit (cacheKey_of q) now st = false ->
  outcome (net (url_of env q)) = Fulfilled data ->
  truthy data = true ->
  now2 < now + Z.of_N (elapsed (net (url_of env q))) + Store.stdTTL * 1000 ->
  handle env q net2 now2 (snd (handle env q net now st))
  = (answer env q (ApiSuccess data true) now2, snd (handle env q net now st)).
Proof.
  intros Hmiss Hful Htruthy Hlt.
  rewrite (handle_fetched env q net now st data Hmiss Hful). cbn [snd].
  rewrite handle_hit; unfold cache_hit; cbn [cache]; rewrite get_set_same by assumption;
    [reflexivity | assumption].
Qed.

(** Whether a route reports success depends on the payload only, not on
    where it came from: the same payload served again gives the same data,
    with the new [cached] flag and time. *)
Lemma answer_again `{Engine} (env : environment) (q : request)
    (data : jsval) (cached cached' : bool) (later later' : Z) (r : http_response) :
  answer env q (ApiSuccess data cached) later = Normal r ->
  succeeded r = true ->
  answer env q (ApiSuccess data cached') later'
  = Normal (send_success (envelope_field r "data") cached' later').
Proof.
  destruct q as [base | symbol | ids | indicator | from to amount]; cbn [answer].
  - intros [= <-] _. reflexivity.
  - intros Hr Hs.
    destruct (stock_answer_success_inv _ _ _ _ Hr Hs)
      as (data0 & c0 & quote & [= <- <-] & Hquote & Hok & ->).
    unfold stock_answer, stock_respond. rewrite Hquote. cbn [bind]. rewrite Hok.
    destruct quote; try discriminate Hok; reflexivity.
  - intros [= <-] _. reflexivity.
  - unfold economic_answer, economic_respond.
    destruct (get_field data "data") as [series|]; cbn [bind try_catch];
      [|intros [= <-] Hs; discriminate Hs].
    destruct (truthy series); [|intros [= <-] Hs; discriminate Hs].
    destruct (slice_from_start series 10); cbn [bind try_catch];
      [intros [= <-] _; reflexivity | intros [= <-] Hs; discriminate Hs].
  - intros Hr Hs.
    destruct (convert_answer_success_inv _ _ _ _ _ _ _ Hr Hs)
      as (data0 & c0 & rate & x & [= <- <-] & Hrate & Htruthy & Hnum & ->).
    now rewrite (convert_answer_success _ _ _ _ _ _ _ _ _ Hrate Htruthy Hnum).
Qed.

(** On the routes that read the payload (stock, indicator, conversion) a
    success implies a payload that reads as true. *)
Lemma success_payload_truthy `{Engine} (env : environment) (q : request)
    (data : jsval) (cached : bool) (later : Z) (r : http_response) :
  (forall base, q <> ExchangeRates base) ->
  (forall ids, q <> Crypto ids) ->
  answer env q (ApiSuccess data cached) later = Normal r ->
  succeeded r = true ->
  truthy data = true.
Proof.
  intros Hex Hcr.
  destruct q as [base | symbol | ids | indicator | from to amount]; cbn [answer].
  - now destruct (Hex base).
  - unfold stock_answer, stock_respond.
    destruct data; try reflexivity; cbn; intros [= <-] Hs; try discriminate Hs.
  - now destruct (Hcr ids).
  - unfold economic_answer, economic_respond.
    destruct data; try reflexivity; cbn; intros [= <-] Hs; try discriminate Hs.
  - unfold convert_answer, convert_respond, conversionRate_of.
    destruct data; try reflexivity; destruct (paid env); cbn;
      intros [= <-] Hs; try discriminate Hs.
Qed.

(** So on those three routes a successful fetch is always followed, within
    the TTL, by a cached answer with the same data and no upstream
    request. *)
Lemma repeat_after_success `{Engine} (env : environment) (q : request)
    (net net2 : network) (now now2 : Z) (st : state) (r : http_response) :
  (forall base, q <> ExchangeRates base) ->
  (forall ids, q <> Crypto ids) ->
  cache_hit (cacheKey_of q) now st = false ->
  fst (handle env q net now st) = Normal r ->
  succeeded r = true ->
  now2 < now + Z.of_N (elapsed (net (url_of env q))) + Store.stdTTL * 1000 ->
  handle env q net2 now2 (snd (handle env q net now st))
  = (Normal (send_success (envelope_field r "data") true now2),
     snd (handle env q net now st)).
Proof.
  intros Hex Hcr Hmiss Hr Hs Hlt.
  destruct (outcome (net (url_of env q))) as [data|error] eqn:Hout.
  - pose proof (handle_fetched env q net now st data Hmiss Hout) as Hfirst.
    rewrite Hfirst in Hr. cbn [fst] in Hr.
    pose proof (success_payload_truthy env q data false _ r Hex Hcr Hr Hs) as Htruthy.
    rewrite (repeat_is_served_from_cache env q net net2 now now2 st data
               Hmiss Hout Htruthy Hlt).
    now rewrite (answer_again env q data false true _ now2 r Hr Hs).
  - rewrite (handle_failed env q net now st error Hmiss Hout) in Hr. cbn [fst] in Hr.
    destruct (answer_failure env q (error_text error) (error_status error)
                (now + Z.of_N (elapsed (net (url_of env q))))) as (r' & Hr' & Hf & _).
    rewrite Hr in Hr'. injection Hr' as <-.
    unfold succeeded in Hs. unfold failed in Hf.
    destruct (envelope_field r "success") as [| |[]| | | | |]; discriminate.
Qed.

(** C6, on the crypto route with an upstream that answers 200 with an empty
    body ([response.data] is the empty text): the first call succeeds and
    stores the payload, but the stored payload reads as false in
    [if (cachedData)], so the identical call one second later is sent
    upstream again and its envelope says [cached: false]. *)
Theorem C6_empty_payload_is_fetched_again :
  handle (H := Ecma.engine) env_free (Crypto (Some "bitcoin")) (answers (JStr "")) t0 initial
  = (Normal {| status := 200;
               body := JObj [("success", JBool true);
                             ("data", JStr "");
                             ("cached", JBool false);
                             ("timestamp", JStr "2023-11-14T22:13:20.120Z")] |},
     {| cache := Store.set "crypto_bitcoin" (JStr "") (t0 + 120) ∅;
        requested := [crypto_url (Some "bitcoin")] |})
  /\ handle (H := Ecma.engine) env_free (Crypto (Some "bitcoin")) (answers (JStr ""))
       (t0 + 1000)
       {| cache := Store.set "crypto_bitcoin" (JStr "") (t0 + 120) ∅;
          requested := [crypto_url (Some "bitcoin")] |}
     = (Normal {| status := 200;
                  body := JObj [("success", JBool true);
                                ("data", JStr "");
                                ("cached", JBool false);
                                ("timestamp", JStr "2023-11-14T22:13:21.120Z")] |},
        {| cache := Store.set "crypto_bitcoin" (JStr "") (t0 + 1120) ∅;
           requested := [crypto_url (Some "bitcoin"); crypto_url (Some "bitcoin")] |}).
Proof. vm_compute. repeat split. Qed.

(** C9.  The key of a crypto snapshot is ["crypto_"] followed by the
    identifier list exactly as the caller wrote it.  Two different lists,
    and so the same coins in another order, have different keys; when
    neither is cached, each of the two requests is sent upstream. *)
Theorem C9_crypto_key_is_literal `{Engine} (env : environment) (ids1 ids2 : string)
    (net1 net2 : network) (now1 now2 : Z) (st : state) :
  ids1 <> "" ->
  ids2 <> "" ->
  ids1 <> ids2 ->
  cache_hit (crypto_cacheKey (Some ids1)) now1 st = false ->
  cache_hit (crypto_cacheKey (Some ids2)) now2 st = false ->
  let url ids :=
    "https://api.coingecko.com/api/v3/simple/price?ids=" +:+ ids
      +:+ "&vs_currencies=usd&include_24hr_change=true&include_market_cap=true" in
  cacheKey_of (Crypto (Some ids1)) = "crypto_" +:+ ids1
  /\ cacheKey_of (Crypto (Some ids1)) <> cacheKey_of (Crypto (Some ids2))
  /\ requested
       (snd (handle env (Crypto (Some ids2)) net2 now2
               (snd (handle env (Crypto (Some ids1)) net1 now1 st))))
     = (requested st ++ [crypto_url (Some ids1); crypto_url (Some ids2)])%list
  /\ crypto_url (Some ids1) = url ids1
  /\ crypto_url (Some ids2) = url ids2.
Proof.
  intros Hne1 Hne2 Hdiff Hmiss1 Hmiss2 url.
  assert (Hp : forall ids, ids <> "" -> param_or (Some ids) default_cryptoIds = ids).
  { intros ids Hids. unfold param_or.
    destruct (String.eqb_spec ids ""); [contradiction | reflexivity]. }
  assert (Hurl : forall ids, ids <> "" -> crypto_url (Some ids) = url ids).
  { intros ids Hids. unfold crypto_url. now rewrite Hp. }
  assert (Hkeys : cacheKey_of (Crypto (Some ids1)) <> cacheKey_of (Crypto (Some ids2))).
  { cbn [cacheKey_of]. unfold crypto_cacheKey. rewrite !Hp by assumption.
    cbn. intros [= Heq]. contradiction. }
  split; [cbn [cacheKey_of]; unfold crypto_cacheKey; now rewrite Hp|].
  split; [exact Hkeys|].
  split; [|split; now apply Hurl].
  rewrite miss_requests_upstream.
  - rewrite miss_requests_upstream by exact Hmiss1.
    cbn [url_of]. now rewrite <- app_assoc.
  - unfold cache_hit. rewrite other_key_untouched by exact Hkeys. exact Hmiss2.
Qed.

(** The theorem at work on the two orders of bitcoin and ethereum. *)
Lemma C9_crypto_key_is_literal_witness :
  cacheKey_of (H := Ecma.engine) (Crypto (Some "bitcoin,ethereum")) = "crypto_bitcoin,ethereum"
  /\ cacheKey_of (H := Ecma.engine) (Crypto (Some "bitcoin,ethereum"))
     <> cacheKey_of (H := Ecma.engine) (Crypto (Some "ethereum,bitcoin"))
  /\ requested
       (snd (handle (H := Ecma.engine) env_free (Crypto (Some "ethereum,bitcoin"))
               (answers (JObj [])) (t0 + 1000)
               (snd (handle (H := Ecma.engine) env_free (Crypto (Some "bitcoin,ethereum"))
                       (answers (JObj [])) t0 initial))))
     = ([] ++ [crypto_url (Some "bitcoin,ethereum"); crypto_url (Some "ethereum,bitcoin")])%list
  /\ crypto_url (Some "bitcoin,ethereum")
     = "https://api.coingecko.com/api/v3/simple/price?ids=bitcoin,ethereum&vs_currencies=usd&include_24hr_change=true&include_market_cap=true"
  /\ crypto_url (Some "ethereum,bitcoin")
     = "https://api.coingecko.com/api/v3/simple/price?ids=ethereum,bitcoin&vs_currencies=usd&include_24hr_change=true&include_market_cap=true".
Proof.
  apply (C9_crypto_key_is_literal (H := Ecma.engine) env_free
           "bitcoin,ethereum" "ethereum,bitcoin"
           (answers (JObj [])) (answers (JObj [])) t0 (t0 + 1000) initial);
    [discriminate | discriminate | discriminate | reflexivity | reflexivity].
Defined.

(** C10.  The key of a conversion is built from the two currencies and not
    from the amount.  A conversion that has to be fetched and whose payload
    carries a usable rate is answered with [cached: false] and stores the
    payload under that key.  After a successful conversion the payload sits
    in the cache under that key (stored when the upstream request resolved,
    for five minutes, if it had to be fetched); until that entry expires, a
    conversion of the same pair with any amount is answered without an
    upstream request, with [cached: true], with the same rate, and with
    [amount] and [result] computed from its own amount. *)
Theorem C10_amount_not_in_key `{Engine} (env : environment) (from to amount1 : string)
    (net1 : network) (now1 : Z) (st : state) :
  let first := handle env (Convert from to amount1) net1 now1 st in
  let st1 := snd first in
  let envelope amount rate (x : float) cached at_ :=
    {| status := 200;
       body := JObj [("success", JBool true);
                     ("data",
                      JObj [("from", JStr from); ("to", JStr to);
                            ("amount", JNum (parseFloat amount));
                            ("rate", rate);
                            ("result",
                             JNum (parseFloat
                                     (toFixed (PrimFloat.mul (parseFloat amount) x) 2)))]);
                     ("cached", JBool cached);
                     ("timestamp", JStr (toISOString at_))] |} in
  (forall amount2,
      cacheKey_of (Convert from to amount2) = "convert_" +:+ from +:+ "_" +:+ to)
  /\ (forall data rate x,
        cache_hit (convert_cacheKey from to) now1 st = false ->
        outcome (net1 (convert_url env from to)) = Fulfilled data ->
        conversionRate_of env to data = Normal rate ->
        truthy rate = true ->
        ToNumber rate = Normal x ->
        let stored_at := now1 + Z.of_N (elapsed (net1 (convert_url env from to))) in
        first
        = (Normal (envelope amount1 rate x false stored_at),
           {| cache := Store.set ("convert_" +:+ from +:+ "_" +:+ to) data stored_at
                         (cache st);
              requested := requested st ++ [convert_url env from to] |}))
  /\ (forall r1,
        fst first = Normal r1 ->
        succeeded r1 = true ->
        exists (e : Store.entry) (x : float),
          cache st1 !! convert_cacheKey from to = Some e
          /\ (cache_hit (convert_cacheKey from to) now1 st = false ->
              Store.storedAt e = now1 + Z.of_N (elapsed (net1 (convert_url env from to)))
              /\ Store.ttl e = 300000)
          /\ ToNumber (data_field r1 "rate") = Normal x
          /\ forall amount2 net2 now2,
               now2 < Store.storedAt e + Store.ttl e ->
               handle env (Convert from to amount2) net2 now2 st1
               = (Normal (envelope amount2 (data_field r1 "rate") x true now2), st1)
               /\ exists r2,
                    fst (handle env (Convert from to amount2) net2 now2 st1) = Normal r2
                    /\ status r2 = 200
                    /\ envelope_field r2 "success" = JBool true
                    /\ envelope_field r2 "cached" = JBool true
                    /\ data_field r2 "amount" = JNum (parseFloat amount2)
                    /\ data_field r2 "rate" = data_field r1 "rate"
                    /\ data_field r2 "result"
                       = JNum (parseFloat
                                 (toFixed (PrimFloat.mul (parseFloat amount2) x) 2))).
Proof.
  intros first st1 envelope. split; [reflexivity|]. split.
  { intros data rate x Hmiss Hful Hrate Htruthy Hnum stored_at. unfold first.
    rewrite (handle_fetched env (Convert from to amount1) net1 now1 st data Hmiss Hful).
    cbn [answer]. now rewrite (convert_answer_success _ _ _ _ _ _ _ _ _ Hrate Htruthy Hnum). }
  intros r1 Hr1 Hs.
  assert (Hread : forall s amount2 net2 now2 rate x,
             handle env (Convert from to amount2) net2 now2 s
             = (Normal (envelope amount2 rate x true now2), s) ->
             handle env (Convert from to amount2) net2 now2 s
             = (Normal (envelope amount2 rate x true now2), s)
             /\ exists r2,
                  fst (handle env (Convert from to amount2) net2 now2 s) = Normal r2
                  /\ status r2 = 200
                  /\ envelope_field r2 "success" = JBool true
                  /\ envelope_field r2 "cached" = JBool true
                  /\ data_field r2 "amount" = JNum (parseFloat amount2)
                  /\ data_field r2 "rate" = rate
                  /\ data_field r2 "result"
                     = JNum (parseFloat
                               (toFixed (PrimFloat.mul (parseFloat amount2) x) 2))).
  { intros s amount2 net2 now2 rate x Heq. split; [exact Heq|].
    rewrite Heq. eexists. split; [reflexivity|]. repeat split. }
  unfold st1, first in *. rewrite handle_unfold in Hr1 |- *. cbn [url_of cacheKey_of] in *.
  destruct (makeAPIRequest_spec net1 (convert_url env from to)
              (convert_cacheKey from to) now1 st) as [Hhit | data Hmiss Hful | error Hmiss Hrej];
    cbn [fst snd answer] in *.
  - (* the first conversion was itself answered from the cache *)
    destruct (convert_answer_success_inv _ _ _ _ _ _ _ Hr1 Hs)
      as (data & cached & rate & x & [= Hdata _] & Hrate & Htruthy & Hnum & ->).
    unfold cache_hit, Store.get in Hhit, Hdata.
    destruct (cache st !! convert_cacheKey from to) as [e|] eqn:He; [|discriminate Hhit].
    destruct (Store.servable e now1) eqn:Hserv; [|discriminate Hhit].
    exists e, x. split; [reflexivity|].
    split; [intros Hmiss; unfold cache_hit, Store.get in Hmiss;
            rewrite He, Hserv in Hmiss; congruence|].
    split; [exact Hnum|].
    intros amount2 net2 now2 Hlt. apply (Hread _ amount2 net2 now2 rate x).
    assert (Hget : Store.get (convert_cacheKey from to) now2 (cache st) = data).
    { unfold Store.get, Store.servable. rewrite He.
      destruct (Z.ltb_spec now2 (Store.storedAt e + Store.ttl e)); [congruence | lia]. }
    rewrite (handle_hit env (Convert from to amount2) net2 now2 st)
      by (unfold cache_hit; cbn [cacheKey_of]; rewrite Hget, <- Hdata; exact Hhit).
    cbn [answer cacheKey_of]. rewrite Hget.
    now rewrite (convert_answer_success _ _ _ _ _ _ _ _ _ Hrate Htruthy Hnum).
  - (* the first conversion fetched the payload *)
    destruct (convert_answer_success_inv _ _ _ _ _ _ _ Hr1 Hs)
      as (data' & cached & rate & x & [= <- _] & Hrate & Htruthy & Hnum & ->).
    eexists _, x. split; [apply lookup_insert_eq|].
    cbn [Store.storedAt Store.ttl]. split; [now split|]. split; [exact Hnum|].
    intros amount2 net2 now2 Hlt. apply (Hread _ amount2 net2 now2 rate x).
    assert (Htruthy_data : truthy data = true).
    { destruct data; try reflexivity; unfold conversionRate_of in Hrate;
        destruct (paid env); cbn in Hrate; try discriminate Hrate;
        injection Hrate as <-; discriminate Htruthy. }
    pose proof (repeat_is_served_from_cache env (Convert from to amount2)
                  net1 net2 now1 now2 st data Hmiss Hful Htruthy_data Hlt) as Hrep.
    rewrite (handle_fetched env (Convert from to amount2) net1 now1 st data Hmiss Hful)
      in Hrep.
    cbn [snd url_of cacheKey_of answer] in Hrep. rewrite Hrep.
    now rewrite (convert_answer_success _ _ _ _ _ _ _ _ _ Hrate Htruthy Hnum).
  - (* a rejected request is not a success *)
    destruct (convert_answer_success_inv _ _ _ _ _ _ _ Hr1 Hs)
      as (? & ? & ? & ? & [=] & _).
Qed.

(** The theorem at work: 8 USD to EUR is fetched, then 100 USD to EUR four
    minutes later, while the provider is down, comes from the cache with its
    own result. *)
Lemma C10_amount_not_in_key_witness :
  fst (handle (H := Ecma.engine) env_paid (Convert "USD" "EUR" "8")
         (answers usd_eur_pair) t0 initial)
  = Normal {| status := 200;
              body := JObj [("success", JBool true);
                            ("data",
                             JObj [("from", JStr "USD"); ("to", JStr "EUR");
                                   ("amount", JNum 8); ("rate", JNum 0.875);
                                   ("result", JNum 7)]);
                            ("cached", JBool false);
                            ("timestamp", JStr "2023-11-14T22:13:20.120Z")] |}
  /\ handle (H := Ecma.engine) env_paid (Convert "USD" "EUR" "100") times_out (t0 + 240000)
       (snd (handle (H := Ecma.engine) env_paid (Convert "USD" "EUR" "8")
               (answers usd_eur_pair) t0 initial))
     = (Normal {| status := 200;
                  body := JObj [("success", JBool true);
                                ("data",
                                 JObj [("from", JStr "USD"); ("to", JStr "EUR");
                                       ("amount", JNum 100); ("rate", JNum 0.875);
                                       ("result", JNum 87.5)]);
                                ("cached", JBool true);
                                ("timestamp", JStr "2023-11-14T22:17:20.000Z")] |},
        snd (handle (H := Ecma.engine) env_paid (Convert "USD" "EUR" "8")
               (answers usd_eur_pair) t0 initial)).
Proof.
  destruct (C10_amount_not_in_key (H := Ecma.engine) env_paid "USD" "EUR" "8"
              (answers usd_eur_pair) t0 initial) as (_ & Hfetched & Hnext).
  split.
  - exact (f_equal fst (Hfetched usd_eur_pair (JNum 0.875) 0.875%float
                          eq_refl eq_refl eq_refl eq_refl eq_refl)).
  - destruct (Hnext _ eq_refl eq_refl) as (e & x & He & Hfresh & Hnum & Hagain).
    destruct (Hfresh eq_refl) as [Hat Httl].
    injection Hnum as <-.
    apply (Hagain "100" times_out (t0 + 240000)).
    rewrite Hat, Httl. reflexivity.
Defined.

(* ===================================================================== *)
(** ** Economic indicators *)
(* ===================================================================== *)

(** Names that are not keys of [indicatorMap] map to themselves. *)
Lemma functionName_unknown (name : string) :
  ~ In name ["GDP"; "INFLATION"; "UNEMPLOYMENT"; "INTEREST_RATE"] ->
  functionName name = name.
Proof.
  intros Hnot. unfold functionName, indicatorMap. cbn [indicatorMap_get].
  destruct (String.eqb_spec "GDP" name) as [<-|_]; [exfalso; apply Hnot; cbn; tauto|].
  destruct (String.eqb_spec "INFLATION" name) as [<-|_]; [exfalso; apply Hnot; cbn; tauto|].
  destruct (String.eqb_spec "UNEMPLOYMENT" name) as [<-|_];
    [exfalso; apply Hnot; cbn; tauto|].
  destruct (String.eqb_spec "INTEREST_RATE" name) as [<-|_];
    [exfalso; apply Hnot; cbn; tauto|].
  reflexivity.
Qed.

(** In a list in which every element comes before all later ones in some
    order, the elements kept by [firstn] come before all the dropped
    ones. *)
Lemma prefix_precedes_rest {A : Type} (before : A -> A -> Prop) (l1 l2 : list A) :
  StronglySorted before (l1 ++ l2) ->
  forall x y, In x l1 -> In y l2 -> before x y.
Proof.
  induction l1 as [|a l1 IH]; intros Hsorted x y Hx Hy; [destruct Hx|].
  cbn in Hsorted. apply StronglySorted_inv in Hsorted as [Htail Hhead].
  destruct Hx as [<-|Hx].
  - rewrite Forall_forall in Hhead. apply Hhead, list_elem_of_In, in_or_app. now right.
  - now apply IH.
Qed.

Lemma first_ten_precede_rest {A : Type} (before : A -> A -> Prop) (l : list A) :
  StronglySorted before l ->
  forall x y, In x (firstn 10 l) -> In y (skipn 10 l) -> before x y.
Proof.
  intros Hsorted. apply prefix_precedes_rest. now rewrite firstn_skipn.
Qed.

(** C7 (amended).  The indicator route upper-cases the name it is given.
    It maps the upper-cased names GDP, INFLATION, UNEMPLOYMENT and
    INTEREST_RATE to the provider's series names and sends every other name
    to the provider in its upper-cased form; it does not reject a name
    itself: on a cache miss the request goes to the provider with that name
    as the function.  When the payload's [data] is an array, the envelope is
    a success carrying its first ten elements, in the provider's order, and
    no more; when the provider lists the points newest first, these are the
    ten most recent: each of them is newer than every point left out. *)
Theorem C7_indicator_names_and_first_ten `{Engine} (env : environment)
    (indicator : string) (net : network) (now : Z) (st : state) :
  let name := toUpperCase indicator in
  let url :=
    "https://www.alphavantage.co/query?function=" +:+ functionName name
      +:+ "&apikey=" +:+ ALPHA_VANTAGE_API_KEY env in
  (functionName "GDP" = "REAL_GDP"
   /\ functionName "INFLATION" = "INFLATION"
   /\ functionName "UNEMPLOYMENT" = "UNEMPLOYMENT"
   /\ functionName "INTEREST_RATE" = "FEDERAL_FUNDS_RATE")
  /\ (~ In name ["GDP"; "INFLATION"; "UNEMPLOYMENT"; "INTEREST_RATE"] ->
      functionName name = name)
  /\ url_of env (Economic indicator) = url
  /\ (cache_hit (cacheKey_of (Economic indicator)) now st = false ->
      requested (snd (handle env (Economic indicator) net now st))
      = (requested st ++ [url])%list)
  /\ (forall payload cached st' later points,
        makeAPIRequest net (economic_url env indicator) (economic_cacheKey indicator) now st
        = (ApiSuccess payload cached, st', later) ->
        get_field payload "data" = Normal (JArr points) ->
        handle env (Economic indicator) net now st
        = (Normal {| status := 200;
                     body := JObj [("success", JBool true);
                                   ("data", JArr (firstn 10 points));
                                   ("cached", JBool cached);
                                   ("timestamp", JStr (toISOString later))] |},
           st')
        /\ (exists r,
              fst (handle env (Economic indicator) net now st) = Normal r
              /\ status r = 200
              /\ envelope_field r "success" = JBool true
              /\ envelope_field r "data" = JArr (firstn 10 points))
        /\ length (firstn 10 points) = Nat.min 10 (length points)
        /\ forall newer : jsval -> jsval -> Prop,
             StronglySorted newer points ->
             forall kept dropped,
               In kept (firstn 10 points) -> In dropped (skipn 10 points) ->
               newer kept dropped).
Proof.
  intros name url.
  split; [repeat split|].
  split; [apply functionName_unknown|].
  split; [reflexivity|].
  split; [apply (miss_requests_upstream env (Economic indicator))|].
  intros payload cached st' later points Hcall Hdata.
  assert (Hanswer : handle env (Economic indicator) net now st
                    = (Normal (send_success (JArr (firstn 10 points)) cached later), st')).
  { rewrite handle_unfold. cbn [url_of cacheKey_of]. rewrite Hcall.
    cbn [answer]. unfold economic_answer, economic_respond.
    rewrite Hdata. reflexivity. }
  split; [exact Hanswer|].
  split; [rewrite Hanswer; eexists; split; [reflexivity | repeat split]|].
  split; [apply length_firstn | intros newer; apply first_ten_precede_rest].
Qed.

(** C7, as stated, fails.  A name that is not one of the four is not passed
    on as it was given: [Treasury_Yield] reaches the provider as
    [TREASURY_YIELD].  And the ten points returned are the first ten of the
    payload, whatever their dates: of the twelve monthly points of a series
    listed oldest first, the ten oldest come back and the two most recent,
    September and October 2023, are left out. *)
Lemma C7_name_upper_cased_first_ten_kept :
  requested (snd (handle (H := Ecma.engine) env_free (Economic "Treasury_Yield")
                    times_out t0 initial))
  = ["https://www.alphavantage.co/query?function=TREASURY_YIELD&apikey=demo"]
  /\ fst (handle (H := Ecma.engine) env_free (Economic "CPI")
            (answers cpi_series_oldest_first) t0 initial)
     = Normal {| status := 200;
                 body := JObj [("success", JBool true);
                               ("data",
                                JArr [point "2022-11-01" "297.711";
                                      point "2022-12-01" "296.797";
                                      point "2023-01-01" "299.170";
                                      point "2023-02-01" "300.840";
                                      point "2023-03-01" "301.836";
                                      point "2023-04-01" "303.363";
                                      point "2023-05-01" "304.127";
                                      point "2023-06-01" "305.109";
                                      point "2023-07-01" "305.691";
                                      point "2023-08-01" "307.026"]);
                               ("cached", JBool false);
                               ("timestamp", JStr "2023-11-14T22:13:20.120Z")] |}
  /\ get_field cpi_series_oldest_first "data"
     = Normal (JArr [point "2022-11-01" "297.711"; point "2022-12-01" "296.797";
                     point "2023-01-01" "299.170"; point "2023-02-01" "300.840";
                     point "2023-03-01" "301.836"; point "2023-04-01" "303.363";
                     point "2023-05-01" "304.127"; point "2023-06-01" "305.109";
                     point "2023-07-01" "305.691"; point "2023-08-01" "307.026";
                     point "2023-09-01" "307.789"; point "2023-10-01" "307.671"]).
Proof. vm_compute. repeat split. Qed.

(** The theorem at work: [cpi] is upper-cased, is not one of the four names
    and is asked for as CPI; of the twelve points the provider sends, the
    envelope keeps the first ten. *)
Lemma C7_indicator_names_and_first_ten_witness :
  functionName "CPI" = "CPI"
  /\ requested (snd (handle (H := Ecma.engine) env_free (Economic "cpi")
                       (answers cpi_series) t0 initial))
     = ([] ++ ["https://www.alphavantage.co/query?function=CPI&apikey=demo"])%list
  /\ handle (H := Ecma.engine) env_free (Economic "cpi") (answers cpi_series) t0 initial
     = (Normal {| status := 200;
                  body := JObj [("success", JBool true);
                                ("data",
                                 JArr [point "2023-10-01" "307.671";
                                       point "2023-09-01" "307.789";
                                       point "2023-08-01" "307.026";
                                       point "2023-07-01" "305.691";
                                       point "2023-06-01" "305.109";
                                       point "2023-05-01" "304.127";
                                       point "2023-04-01" "303.363";
                                       point "2023-03-01" "301.836";
                                       point "2023-02-01" "300.840";
                                       point "2023-01-01" "299.170"]);
                                ("cached", JBool false);
                                ("timestamp", JStr "2023-11-14T22:13:20.120Z")] |},
        {| cache := Store.set "economic_CPI" cpi_series (t0 + 120) ∅;
           requested := ["https://www.alphavantage.co/query?function=CPI&apikey=demo"] |}).
Proof.
  pose proof (C7_indicator_names_and_first_ten (H := Ecma.engine) env_free "cpi"
                (answers cpi_series) t0 initial) as (_ & Hunknown & _ & Hsent & Hten).
  split; [|split].
  - apply Hunknown. intros [Heq|[Heq|[Heq|[Heq|[]]]]]; discriminate Heq.
  - exact (Hsent eq_refl).
  - exact (proj1 (Hten cpi_series false _ _ cpi_points eq_refl eq_refl)).
Defined.

(* ===================================================================== *)
(** ** Every request is answered *)
(* ===================================================================== *)

(** Whatever [makeAPIRequest] resolved to, the route completes normally
    with one of its two envelopes, provided the error text of a failure does
    not read as false. *)
Lemma answer_shape `{Engine} (env : environment) (q : request)
    (result : api_result) (later : Z) :
  (forall error code, result = ApiFailure error code -> truthy error = true) ->
  exists r, answer env q result later = Normal r
            /\ success_envelope r || failure_envelope r = true.
Proof.
  intros Herr.
  destruct result as [data cached | error code].
  - clear Herr. destruct q as [base | symbol | ids | indicator | from to amount];
      cbn [answer].
    + eexists; split; reflexivity.
    + unfold stock_answer, stock_respond.
      destruct (get_field data "Global Quote") as [quote|]; cbn [bind try_catch];
        [|eexists; split; reflexivity].
      destruct (truthy quote && has_own_keys quote) eqn:Hok;
        [|eexists; split; reflexivity].
      destruct quote; try discriminate Hok; eexists; split; reflexivity.
    + eexists; split; reflexivity.
    + unfold economic_answer, economic_respond.
      destruct (get_field data "data") as [series|]; cbn [bind try_catch];
        [|eexists; split; reflexivity].
      destruct (truthy series); [|eexists; split; reflexivity].
      destruct (slice_from_start series 10); eexists; split; reflexivity.
    + unfold convert_answer, convert_respond, convertedAmount.
      destruct (conversionRate_of env to data) as [rate|]; cbn [bind try_catch];
        [|eexists; split; reflexivity].
      destruct (truthy rate); [|eexists; split; reflexivity].
      destruct (ToNumber rate); eexists; split; reflexivity.
  - specialize (Herr error code eq_refl).
    destruct q; cbn [answer]; eexists; (split; [reflexivity|]);
      apply Bool.orb_true_iff; right;
      unfold failure_envelope, failed, envelope_field; cbn;
      first [exact Herr | reflexivity].
Qed.

Lemma success_envelope_succeeded (r : http_response) :
  success_envelope r = true -> succeeded r = true.
Proof.
  unfold success_envelope. rewrite !Bool.andb_true_iff. tauto.
Qed.

Lemma failure_envelope_failed (r : http_response) :
  failure_envelope r = true ->
  failed r = true /\ truthy (envelope_field r "error") = true.
Proof.
  unfold failure_envelope. rewrite !Bool.andb_true_iff. tauto.
Qed.

(** Every answer of the gateway is one of the two envelopes. *)
Lemma handle_shape `{Engine} (env : environment) (q : request)
    (net : network) (now : Z) (st : state) :
  exists r, fst (handle env q net now st) = Normal r
            /\ success_envelope r || failure_envelope r = true.
Proof.
  rewrite handle_unfold.
  destruct (makeAPIRequest_spec net (url_of env q) (cacheKey_of q) now st)
    as [Hhit | data Hmiss Hful | error Hmiss Hrej]; cbn [fst];
    apply answer_shape; try discriminate.
  intros e c [= <- _]. apply error_text_truthy.
Qed.

(** C8 (amended).  For every capability, every state of the cache and every
    behaviour of the upstream, the handler completes normally (nothing is
    thrown out of it: a payload the route cannot read is caught and answered
    500) with a success envelope or a failure envelope.  When the upstream
    request was made and rejected (transport error, timeout, non-2xx
    status), the answer is a failure envelope: [success: false] and an error
    that is not empty, with the upstream's status (500 without one; always
    404 on the indicator route); its body has the fields [success] and
    [error] (and [fallback] on the exchange-rate route) and so no [cached] and
    no [timestamp]: it is not the envelope of the specification.  When the
    upstream request was fulfilled with a body that is not JSON, which
    arrives as a text, the routes that read the payload answer with a
    failure envelope (404 on the stock and indicator routes and on the
    conversion route with the paid provider, 500 on the conversion route
    with the free provider), and likewise with 500 when the body is [null];
    the exchange-rate and crypto routes, which do not read the payload,
    return whatever arrived as the data of a success envelope.  The answer
    of the error-handling middleware is a failure envelope with status
    500. *)
Theorem C8_every_request_is_answered `{Engine} (env : environment) (q : request)
    (net : network) (now : Z) (st : state) :
  exists r,
    fst (handle env q net now st) = Normal r
    /\ success_envelope r || failure_envelope r = true
    /\ (cache_hit (cacheKey_of q) now st = false ->
        forall error,
          outcome (net (url_of env q)) = Rejected error ->
          failure_envelope r = true
          /\ envelope_field r "success" = JBool false
          /\ truthy (envelope_field r "error") = true
          /\ status r = match q with
                        | Economic _ => 404
                        | _ => match response error with
                               | Some (code, _) => if code =? 0 then 500 else code
                               | None => 500
                               end
                        end
          /\ has_field r "cached" = false
          /\ has_field r "timestamp" = false
          /\ ResponseEnvelope r = false
          /\ Object_keys (body r)
             = match q with
               | ExchangeRates _ => ["success"; "error"; "fallback"]
               | _ => ["success"; "error"]
               end)
    /\ (cache_hit (cacheKey_of q) now st = false ->
        forall data,
          outcome (net (url_of env q)) = Fulfilled data ->
          match q with
          | ExchangeRates _ | Crypto _ =>
              r = {| status := 200;
                     body := JObj [("success", JBool true);
                                   ("data", data);
                                   ("cached", JBool false);
                                   ("timestamp",
                                    JStr (toISOString
                                            (now + Z.of_N (elapsed (net (url_of env q))))))] |}
          | Stock _ | Economic _ =>
              (is_string data = true -> status r = 404 /\ failure_envelope r = true)
              /\ (data = JNull -> status r = 500 /\ failure_envelope r = true)
          | Convert _ _ _ =>
              (is_string data = true ->
               status r = (if paid env then 404 else 500) /\ failure_envelope r = true)
              /\ (data = JNull -> status r = 500 /\ failure_envelope r = true)
          end)
    /\ failure_envelope error_middleware = true
    /\ status error_middleware = 500.
Proof.
  destruct (handle_shape env q net now st) as (r & Hr & Hshape).
  exists r. split; [exact Hr|]. split; [exact Hshape|].
  split; [|split; [|split; reflexivity]].
  - intros Hmiss error Hrej.
    rewrite (handle_failed env q net now st error Hmiss Hrej) in Hr. cbn [fst] in Hr.
    pose proof (error_text_truthy error) as Htext.
    assert (Hstatus : status_or_500 (error_status error)
                      = match response error with
                        | Some (code, _) => if code =? 0 then 500 else code
                        | None => 500
                        end).
    { unfold error_status, status_or_500.
      destruct (response error) as [[code data]|]; [|reflexivity].
      destruct (Z.eqb_spec code 0) as [->|Hne]; [reflexivity|].
      now destruct (Z.eqb_spec code 0). }
    destruct q as [base | symbol | ids | indicator | from to amount];
      cbn [answer] in Hr; injection Hr as <-;
      (split; [unfold failure_envelope, failed, envelope_field; cbn;
               first [reflexivity | now rewrite Htext]|]);
      (split; [reflexivity|]);
      (split; [first [reflexivity | exact Htext]|]);
      (split; [first [reflexivity | exact Hstatus]|]);
      repeat split.
  - intros Hmiss data Hful.
    rewrite (handle_fetched env q net now st data Hmiss Hful) in Hr.
    cbn [fst] in Hr.
    destruct q as [base | symbol | ids | indicator | from to amount];
      cbn [answer] in Hr.
    + now injection Hr as <-.
    + split; [intros Htext; destruct data; try discriminate Htext | intros ->];
        injection Hr as <-; now split.
    + now injection Hr as <-.
    + split; [intros Htext; destruct data; try discriminate Htext | intros ->];
        injection Hr as <-; now split.
    + unfold convert_answer, convert_respond, conversionRate_of in Hr.
      split; [intros Htext; destruct data; try discriminate Htext | intros ->];
        destruct (paid env); cbn in Hr; injection Hr as <-; now split.
Qed.

(** C8, as stated, fails.  A gateway in front of the coin provider answers
    200 with an HTML page; the body cannot be parsed, and the crypto and
    exchange-rate routes return it as the data of a success.  And the answer
    to a request that ran into the timeout has [success] and [error] and
    nothing else: no [cached], no [timestamp]. *)
Lemma C8_unparsed_body_is_a_success :
  fst (handle (H := Ecma.engine) env_free (Crypto None) answers_html t0 initial)
  = Normal {| status := 200;
              body := JObj [("success", JBool true);
                            ("data", JStr "<html><body>Bad Gateway</body></html>");
                            ("cached", JBool false);
                            ("timestamp", JStr "2023-11-14T22:13:20.120Z")] |}
  /\ fst (handle (H := Ecma.engine) env_free (ExchangeRates None) answers_html t0 initial)
     = Normal {| status := 200;
                 body := JObj [("success", JBool true);
                               ("data", JStr "<html><body>Bad Gateway</body></html>");
                               ("cached", JBool false);
                               ("timestamp", JStr "2023-11-14T22:13:20.120Z")] |}
  /\ fst (handle (H := Ecma.engine) env_free (Stock "AAPL") times_out t0 initial)
     = Normal {| status := 500;
                 body := JObj [("success", JBool false);
                               ("error", JStr "timeout of 10000ms exceeded")] |}
  /\ ResponseEnvelope
       {| status := 500;
          body := JObj [("success", JBool false);
                        ("error", JStr "timeout of 10000ms exceeded")] |}
     = false.
Proof. vm_compute. repeat split. Qed.

(** The theorem at work on a stock request that runs into the timeout, on an
    indicator request answered 503, and on a stock request answered with an
    HTML page. *)
Lemma C8_every_request_is_answered_witness :
  (exists r,
      fst (handle (H := Ecma.engine) env_free (Stock "AAPL") times_out t0 initial) = Normal r
      /\ envelope_field r "success" = JBool false
      /\ envelope_field r "error" = JStr "timeout of 10000ms exceeded"
      /\ status r = 500)
  /\ (exists r,
        fst (handle (H := Ecma.engine) env_free (Economic "GDP") unavailable t0 initial)
        = Normal r
        /\ status r = 404)
  /\ (exists r,
        fst (handle (H := Ecma.engine) env_free (Stock "AAPL") answers_html t0 initial)
        = Normal r
        /\ status r = 404
        /\ failure_envelope r = true).
Proof.
  split; [|split].
  - destruct (C8_every_request_is_answered (H := Ecma.engine) env_free (Stock "AAPL")
                times_out t0 initial) as (r & Hr & _ & Hrej & _).
    exists r. split; [exact Hr|].
    destruct (Hrej eq_refl _ eq_refl) as (_ & Hs & _ & Hstatus & _).
    split; [exact Hs|]. split; [|exact Hstatus].
    injection Hr as <-. reflexivity.
  - destruct (C8_every_request_is_answered (H := Ecma.engine) env_free (Economic "GDP")
                unavailable t0 initial) as (r & Hr & _ & Hrej & _).
    exists r. split; [exact Hr|].
    exact (proj1 (proj2 (proj2 (proj2 (Hrej eq_refl _ eq_refl))))).
  - destruct (C8_every_request_is_answered (H := Ecma.engine) env_free (Stock "AAPL")
                answers_html t0 initial) as (r & Hr & _ & _ & Htext & _).
    exists r. split; [exact Hr|].
    exact (proj1 (Htext eq_refl _ eq_refl) eq_refl).
Defined.

(* ===================================================================== *)
(** ** How failures are reported *)
(* ===================================================================== *)

Lemma status_or_500_idempotent (s : Z) : status_or_500 (status_or_500 s) = status_or_500 s.
Proof. unfold status_or_500. destruct (Z.eqb_spec s 0); [reflexivity|]. now destruct (Z.eqb_spec s 0). Qed.

Lemma error_status_forwarded (e : axios_error) :
  status_or_500 (error_status e) = error_status e.
Proof.
  unfold error_status. destruct (response e) as [[s data]|]; [|reflexivity].
  apply status_or_500_idempotent.
Qed.

(** X1.  On the exchange-rate, stock, crypto and conversion routes a
    rejected upstream request is answered with the upstream's own status
    code (500 when there was no HTTP answer, or when the code is 0) and with
    an [error] chosen in this order: the [message] field of the upstream's
    JSON body when it does not read as false, else the message of the axios
    error when it is not empty, else ["API request failed"]. *)
Theorem X1_upstream_failure_is_forwarded `{Engine} (env : environment) (q : request)
    (net : network) (now : Z) (st : state) (error : axios_error) :
  (forall indicator, q <> Economic indicator) ->
  cache_hit (cacheKey_of q) now st = false ->
  outcome (net (url_of env q)) = Rejected error ->
  exists r,
    fst (handle env q net now st) = Normal r
    /\ status r = match response error with
                  | Some (code, _) => if code =? 0 then 500 else code
                  | None => 500
                  end
    /\ envelope_field r "success" = JBool false
    /\ envelope_field r "error"
       = match response error with
         | Some (_, data) =>
             if truthy (get_field_opt data "message") then get_field_opt data "message"
             else if String.eqb (message error) "" then JStr "API request failed"
                  else JStr (message error)
         | None =>
             if String.eqb (message error) "" then JStr "API request failed"
             else JStr (message error)
         end.
Proof.
  intros Hnot Hmiss Hrej.
  rewrite (handle_failed env q net now st error Hmiss Hrej). cbn [fst].
  assert (Htext : error_text error
                  = match response error with
                    | Some (_, data) =>
                        if truthy (get_field_opt data "message")
                        then get_field_opt data "message"
                        else if String.eqb (message error) "" then JStr "API request failed"
                             else JStr (message error)
                    | None =>
                        if String.eqb (message error) "" then JStr "API request failed"
                        else JStr (message error)
                    end).
  { unfold error_text, js_or.
    destruct (response error) as [[code data]|].
    - destruct (truthy (get_field_opt data "message")) eqn:Hm; [now rewrite Hm|].
      cbn [truthy]. now destruct (String.eqb (message error) "").
    - cbn [truthy]. now destruct (String.eqb (message error) ""). }
  assert (Hstatus : status_or_500 (error_status error)
                    = match response error with
                      | Some (code, _) => if code =? 0 then 500 else code
                      | None => 500
                      end).
  { rewrite error_status_forwarded. unfold error_status, status_or_500.
    now destruct (response error) as [[code data]|]. }
  destruct q as [base | symbol | ids | indicator | from to amount]; cbn [answer];
    try (now destruct (Hnot indicator));
    eexists; (split; [reflexivity|]); cbn [status body send_upstream_failure send_error];
    (split; [exact Hstatus|]); (split; [reflexivity|]); exact Htext.
Qed.

(** The theorem at work on a 503 with a JSON error body. *)
Lemma X1_upstream_failure_is_forwarded_witness :
  exists r,
    fst (handle (H := Ecma.engine) env_free (Crypto None) unavailable t0 initial) = Normal r
    /\ status r = 503
    /\ envelope_field r "success" = JBool false
    /\ envelope_field r "error" = JStr "Service Unavailable".
Proof.
  apply (X1_upstream_failure_is_forwarded (H := Ecma.engine) env_free (Crypto None)
           unavailable t0 initial
           {| message := "Request failed with status code 503";
              response := Some (503, JObj [("message", JStr "Service Unavailable")]) |});
    [discriminate | reflexivity | reflexivity].
Defined.

(** On ASCII text [slice(0, n)] keeps the first [n] characters. *)
Lemma String_slice_ascii (s : string) :
  ascii_text s = true ->
  forall n, String_slice_from_start n s = String.substring 0 n s.
Proof.
  induction s as [|c s IH]; intros Hascii n; [now destruct n|].
  cbn [ascii_text] in Hascii. apply andb_prop in Hascii as [Hc Hs].
  apply Z.ltb_lt in Hc. cbn [String_slice_from_start].
  unfold is_continuation, starts_pair.
  destruct (Z.leb_spec 128 (byte_value c)); [lia|].
  destruct (Z.leb_spec 240 (byte_value c)); [lia|].
  cbn [andb]. destruct n as [|[|m]]; cbn [String.substring]; [reflexivity | |];
    now rewrite IH.
Qed.

(** X2.  The indicator route hides what went wrong upstream: a rejected
    upstream request is always answered 404 with the route's own text,
    whatever status and message the upstream gave.  On a payload it answers
    200 with the first ten elements when [data] is an array and with the
    first ten UTF-16 code units when [data] is a non-empty text (its first
    ten characters when the text is ASCII), 404 when [data] is missing or
    reads as false, and 500 when the payload is [null] or [data] is any
    other value (a number, [true], an object), on which [slice] cannot be
    called. *)
Theorem X2_indicator_outcomes `{Engine} (env : environment) (indicator : string)
    (net : network) (now : Z) (st : state) :
  let not_found :=
    {| status := 404;
       body := JObj [("success", JBool false);
                     ("error",
                      JStr ("Economic indicator '" +:+ toUpperCase indicator
                              +:+ "' not found or unavailable"))] |} in
  let internal :=
    {| status := 500;
       body := JObj [("success", JBool false);
                     ("error", JStr "Internal server error");
                     ("message",
                      JStr ("Unable to fetch economic data for "
                              +:+ toUpperCase indicator))] |} in
  let first_ten data cached later :=
    {| status := 200;
       body := JObj [("success", JBool true); ("data", data);
                     ("cached", JBool cached);
                     ("timestamp", JStr (toISOString later))] |} in
  let reply := fst (handle env (Economic indicator) net now st) in
  (forall error code st' later,
      makeAPIRequest net (economic_url env indicator) (economic_cacheKey indicator) now st
      = (ApiFailure error code, st', later) ->
      reply = Normal not_found)
  /\
  (forall payload cached st' later,
      makeAPIRequest net (economic_url env indicator) (economic_cacheKey indicator) now st
      = (ApiSuccess payload cached, st', later) ->
      match payload with
      | JUndefined | JNull => reply = Normal internal
      | _ =>
          match get_field_opt payload "data" with
          | JArr points => reply = Normal (first_ten (JArr (firstn 10 points)) cached later)
          | JStr text =>
              reply = Normal (if String.eqb text "" then not_found
                              else first_ten (JStr (String_slice_from_start 10 text))
                                     cached later)
              /\ (ascii_text text = true ->
                  String_slice_from_start 10 text = String.substring 0 10 text)
          | JUndefined | JNull | JBool false => reply = Normal not_found
          | JNum x =>
              reply = Normal (if PrimFloat.is_zero x || PrimFloat.is_nan x
                              then not_found else internal)
          | JBool true | JObj _ | JNative _ => reply = Normal internal
          end
      end).
Proof.
  intros not_found internal first_ten reply. unfold reply.
  rewrite handle_unfold. cbn [url_of cacheKey_of]. split.
  - intros error code st' later ->. reflexivity.
  - intros payload cached st' later ->. cbn [fst answer].
    unfold economic_answer, economic_respond.
    destruct payload as [| | b | x | s | elems | props | name];
      cbn [get_field get_field_opt bind try_catch truthy]; try reflexivity.
    destruct (default JUndefined (own_property props "data"))
      as [| | [|] | x | text | points | inner | name];
      cbn [truthy bind try_catch slice_from_start negb]; try reflexivity.
    + now destruct (PrimFloat.is_zero x || PrimFloat.is_nan x).
    + split; [now destruct (String.eqb text "")|].
      intros Hascii. now apply String_slice_ascii.
Qed.

(** The theorem at work: a 503 from the indicator provider becomes a 404;
    and of a text of ten accented letters, twenty bytes, followed by [xyz],
    the ten letters come back. *)
Lemma X2_indicator_outcomes_witness :
  fst (handle (H := Ecma.engine) env_free (Economic "gdp") unavailable t0 initial)
  = Normal {| status := 404;
              body := JObj [("success", JBool false);
                            ("error",
                             JStr "Economic indicator 'GDP' not found or unavailable")] |}
  /\ fst (handle (H := Ecma.engine) env_free (Economic "gdp")
            (answers (JObj [("data", JStr "ééééééééééxyz")])) t0 initial)
     = Normal {| status := 200;
                 body := JObj [("success", JBool true);
                               ("data", JStr "éééééééééé");
                               ("cached", JBool false);
                               ("timestamp", JStr "2023-11-14T22:13:20.120Z")] |}.
Proof.
  split.
  - exact (proj1 (X2_indicator_outcomes (H := Ecma.engine) env_free "gdp" unavailable
                    t0 initial) _ _ _ _ eq_refl).
  - exact (proj1 (proj2 (X2_indicator_outcomes (H := Ecma.engine) env_free "gdp"
                           (answers (JObj [("data", JStr "ééééééééééxyz")])) t0 initial)
                    (JObj [("data", JStr "ééééééééééxyz")]) false _ _ eq_refl)).
Defined.

(* ===================================================================== *)
(** ** What the stock and conversion routes accept *)
(* ===================================================================== *)

(** X3.  The stock route decides on one test only: a payload whose
    ["Global Quote"] is an object, array or text with at least one key is a
    success, whichever of the six quote fields it has (a missing field is
    [undefined] in the envelope); any other payload is answered 404, except
    [null], on which reading the quote throws and which is answered 500. *)
Theorem X3_stock_outcomes `{Engine} (env : environment) (symbol : string)
    (net : network) (now : Z) (st : state) (data : jsval) (cached : bool)
    (st' : state) (later : Z) :
  makeAPIRequest net (stock_url env symbol) (stock_cacheKey symbol) now st
  = (ApiSuccess data cached, st', later) ->
  let reply := fst (handle env (Stock symbol) net now st) in
  match data with
  | JUndefined | JNull =>
      reply
      = Normal {| status := 500;
                  body := JObj [("success", JBool false);
                                ("error", JStr "Internal server error");
                                ("message",
                                 JStr ("Unable to fetch stock data for "
                                         +:+ toUpperCase symbol))] |}
  | _ =>
      let quote := get_field_opt data "Global Quote" in
      if truthy quote && has_own_keys quote then
        reply
        = Normal {| status := 200;
                    body :=
                      JObj [("success", JBool true);
                            ("data",
                             JObj [("symbol", get_field_opt quote "01. symbol");
                                   ("price", get_field_opt quote "05. price");
                                   ("change", get_field_opt quote "09. change");
                                   ("changePercent",
                                    get_field_opt quote "10. change percent");
                                   ("volume", get_field_opt quote "06. volume");
                                   ("lastUpdate",
                                    get_field_opt quote "07. latest trading day")]);
                            ("cached", JBool cached);
                            ("timestamp", JStr (toISOString later))] |}
      else
        reply
        = Normal {| status := 404;
                    body := JObj [("success", JBool false);
                                  ("error",
                                   JStr ("Stock symbol '" +:+ toUpperCase symbol
                                           +:+ "' not found or invalid"))] |}
  end.
Proof.
  intros Hcall reply. unfold reply. rewrite handle_unfold.
  cbn [url_of cacheKey_of]. rewrite Hcall. cbn [fst answer].
  unfold stock_answer, stock_respond.
  destruct data as [| | b | x | s | elems | props | name];
    cbn [get_field get_field_opt bind try_catch truthy has_own_keys andb]; try reflexivity.
  destruct (default JUndefined (own_property props "Global Quote"))
    as [| | [|] | x | text | items | inner | name];
    cbn [truthy has_own_keys andb bind try_catch]; try reflexivity.
  - now destruct (negb (PrimFloat.is_zero x || PrimFloat.is_nan x)).
  - now destruct (negb (String.eqb text "")).
  - now destruct (negb (Nat.eqb (length items) 0)).
  - now destruct (negb (Nat.eqb (length inner) 0)).
Qed.

(** The theorem at work: a quote that carries none of the six fields is
    still a success. *)
Lemma X3_stock_outcomes_witness :
  fst (handle (H := Ecma.engine) env_free (Stock "ibm")
         (answers (JObj [("Global Quote", JObj [("note", JStr "n/a")])])) t0 initial)
  = Normal {| status := 200;
              body := JObj [("success", JBool true);
                            ("data",
                             JObj [("symbol", JUndefined); ("price", JUndefined);
                                   ("change", JUndefined); ("changePercent", JUndefined);
                                   ("volume", JUndefined); ("lastUpdate", JUndefined)]);
                            ("cached", JBool false);
                            ("timestamp", JStr "2023-11-14T22:13:20.120Z")] |}.
Proof.
  exact (X3_stock_outcomes (H := Ecma.engine) env_free "ibm"
           (answers (JObj [("Global Quote", JObj [("note", JStr "n/a")])])) t0 initial
           _ _ _ _ eq_refl).
Defined.

(** X4.  The conversion route never looks at the amount to decide: with
    the same currencies, cache and upstream, two amounts, numeric or not,
    get the same status, the same [success], the same [error], the same
    rate, and leave the same state.  What decides is the rate alone: a rate
    that reads as false (missing, [null], 0, NaN, empty text) is answered
    404. *)
Theorem X4_conversion_ignores_amount `{Engine} (env : environment)
    (from to amount1 amount2 : string) (net : network) (now : Z) (st : state) :
  (exists r1 r2,
      fst (handle env (Convert from to amount1) net now st) = Normal r1
      /\ fst (handle env (Convert from to amount2) net now st) = Normal r2
      /\ status r1 = status r2
      /\ envelope_field r1 "success" = envelope_field r2 "success"
      /\ envelope_field r1 "error" = envelope_field r2 "error"
      /\ data_field r1 "rate" = data_field r2 "rate")
  /\ snd (handle env (Convert from to amount1) net now st)
     = snd (handle env (Convert from to amount2) net now st)
  /\ (forall data cached st' later rate,
        makeAPIRequest net (convert_url env from to) (convert_cacheKey from to) now st
        = (ApiSuccess data cached, st', later) ->
        conversionRate_of env to data = Normal rate ->
        truthy rate = false ->
        fst (handle env (Convert from to amount1) net now st)
        = Normal {| status := 404;
                    body := JObj [("success", JBool false);
                                  ("error",
                                   JStr ("Conversion rate from " +:+ from +:+ " to " +:+ to
                                           +:+ " not available"))] |}).
Proof.
  rewrite !handle_unfold. cbn [url_of cacheKey_of].
  destruct (makeAPIRequest net (convert_url env from to) (convert_cacheKey from to) now st)
    as [[result st1] later1].
  cbn [fst snd answer]. split; [|split; [reflexivity|]].
  - unfold convert_answer, convert_respond, convertedAmount.
    destruct result as [data cached | error code]; cbn [try_catch].
    + destruct (conversionRate_of env to data) as [rate|]; cbn [bind try_catch].
      * destruct (truthy rate).
        -- destruct (ToNumber rate); cbn [bind try_catch];
             eexists _, _; repeat split; reflexivity.
        -- eexists _, _; repeat split; reflexivity.
      * eexists _, _; repeat split; reflexivity.
    + eexists _, _; repeat split; reflexivity.
  - intros data cached st' later rate [= -> -> ->] Hrate Hfalse.
    unfold convert_answer, convert_respond. rewrite Hrate. cbn [bind].
    now rewrite Hfalse.
Qed.

(** The theorem at work: a paid-provider reply whose rate is 0. *)
Lemma X4_conversion_ignores_amount_witness :
  fst (handle (H := Ecma.engine) env_paid (Convert "USD" "XTS" "abc")
         (answers (JObj [("result", JStr "success"); ("conversion_rate", JNum 0)]))
         t0 initial)
  = Normal {| status := 404;
              body := JObj [("success", JBool false);
                            ("error", JStr "Conversion rate from USD to XTS not available")] |}.
Proof.
  exact (proj2 (proj2
           (X4_conversion_ignores_amount (H := Ecma.engine) env_paid "USD" "XTS" "abc" "1"
              (answers (JObj [("result", JStr "success"); ("conversion_rate", JNum 0)]))
              t0 initial))
           _ _ _ _ (JNum 0) eq_refl eq_refl eq_refl).
Defined.

(* ===================================================================== *)
(** ** The cache over time *)
(* ===================================================================== *)

Lemma get_set_expired (key : string) (v : jsval) (at_ now : Z) (c : gmap string Store.entry) :
  at_ + Store.stdTTL * 1000 <= now ->
  Store.get key now (Store.set key v at_ c) = JUndefined.
Proof.
  intros Hle. unfold Store.get, Store.set.
  rewrite lookup_insert_eq. unfold Store.servable. cbn.
  destruct (Z.ltb_spec now (at_ + Store.stdTTL * 1000)); [lia | reflexivity].
Qed.

(** X5.  Five minutes after a payload was stored it is no longer served:
    an identical request arriving later than that goes upstream again, its
    envelope is built from the new payload with [cached: false], and the
    new payload replaces the old one under the key, with a clock that starts
    when the second upstream request resolved. *)
Theorem X5_expired_entry_is_fetched_again `{Engine} (env : environment) (q : request)
    (net1 net2 : network) (now1 now2 : Z) (st : state) (data1 data2 : jsval) :
  cache_hit (cacheKey_of q) now1 st = false ->
  outcome (net1 (url_of env q)) = Fulfilled data1 ->
  outcome (net2 (url_of env q)) = Fulfilled data2 ->
  now1 + Z.of_N (elapsed (net1 (url_of env q))) + 300000 < now2 ->
  let first := handle env q net1 now1 st in
  let second := handle env q net2 now2 (snd first) in
  let resolved := now2 + Z.of_N (elapsed (net2 (url_of env q))) in
  fst second = answer env q (ApiSuccess data2 false) resolved
  /\ requested (snd second) = (requested st ++ [url_of env q; url_of env q])%list
  /\ cache (snd second) = Store.set (cacheKey_of q) data2 resolved (cache (snd first))
  /\ (forall t, t < resolved + 300000 ->
                Store.get (cacheKey_of q) t (cache (snd second)) = data2)
  /\ (forall r, fst second = Normal r ->
                succeeded r = true ->
                status r = 200
                /\ envelope_field r "cached" = JBool false
                /\ envelope_field r "timestamp" = JStr (toISOString resolved))
  /\ match q with
     | ExchangeRates _ | Crypto _ =>
         fst second
         = Normal {| status := 200;
                     body := JObj [("success", JBool true); ("data", data2);
                                   ("cached", JBool false);
                                   ("timestamp", JStr (toISOString resolved))] |}
     | _ => True
     end.
Proof.
  intros Hmiss Hful1 Hful2 Hlate first second resolved.
  pose proof (handle_fetched env q net1 now1 st data1 Hmiss Hful1) as Hfirst.
  fold first in Hfirst.
  assert (Hmiss2 : cache_hit (cacheKey_of q) now2 (snd first) = false).
  { rewrite Hfirst. unfold cache_hit. cbn [snd cache].
    rewrite get_set_expired; [reflexivity|]. change (Store.stdTTL * 1000) with 300000. lia. }
  pose proof (handle_fetched env q net2 now2 (snd first) data2 Hmiss2 Hful2) as Hsecond.
  fold second resolved in Hsecond. rewrite Hsecond. cbn [fst snd requested cache].
  split; [reflexivity|]. split; [|split; [reflexivity|split; [|split]]].
  - rewrite Hfirst. cbn [snd requested]. now rewrite <- app_assoc.
  - intros t Ht. now apply get_set_same.
  - intros r Hr Hs.
    pose proof (answer_again env q data2 false false resolved resolved r Hr Hs) as Hagain.
    rewrite Hr in Hagain. injection Hagain as ->. repeat split.
  - destruct q; exact I || reflexivity.
Qed.

(** The theorem at work: an AAPL quote fetched again six minutes later, and
    the coin prices likewise. *)
Lemma X5_expired_entry_is_fetched_again_witness :
  requested
    (snd (handle (H := Ecma.engine) env_free (Stock "AAPL") (answers aapl_quote)
            (t0 + 360000)
            (snd (handle (H := Ecma.engine) env_free (Stock "AAPL") (answers aapl_quote)
                    t0 initial))))
  = ([] ++ [url_of (H := Ecma.engine) env_free (Stock "AAPL");
            url_of (H := Ecma.engine) env_free (Stock "AAPL")])%list
  /\ fst (handle (H := Ecma.engine) env_free (Crypto None)
            (answers (JObj [("bitcoin", JObj [("usd", JNum 36500)])])) (t0 + 360000)
            (snd (handle (H := Ecma.engine) env_free (Crypto None)
                    (answers (JObj [("bitcoin", JObj [("usd", JNum 36000)])]))
                    t0 initial)))
     = Normal {| status := 200;
                 body := JObj [("success", JBool true);
                               ("data", JObj [("bitcoin", JObj [("usd", JNum 36500)])]);
                               ("cached", JBool false);
                               ("timestamp", JStr "2023-11-14T22:19:20.120Z")] |}.
Proof.
  split.
  - refine (proj1 (proj2
              (X5_expired_entry_is_fetched_again (H := Ecma.engine) env_free (Stock "AAPL")
                 (answers aapl_quote) (answers aapl_quote) t0 (t0 + 360000) initial
                 aapl_quote aapl_quote eq_refl eq_refl eq_refl _))).
    reflexivity.
  - refine (proj2 (proj2 (proj2 (proj2 (proj2
              (X5_expired_entry_is_fetched_again (H := Ecma.engine) env_free (Crypto None)
                 (answers (JObj [("bitcoin", JObj [("usd", JNum 36000)])]))
                 (answers (JObj [("bitcoin", JObj [("usd", JNum 36500)])]))
                 t0 (t0 + 360000) initial _ _ eq_refl eq_refl eq_refl _)))))).
    reflexivity.
Defined.

(* ===================================================================== *)
(** ** Which requests share a cache entry *)
(* ===================================================================== *)

Lemma append_assoc (a b c : string) : (a +:+ b) +:+ c = a +:+ (b +:+ c).
Proof.
  induction a as [|x a IH]; [reflexivity|].
  change (String x ((a +:+ b) +:+ c) = String x (a +:+ (b +:+ c))). now rewrite IH.
Qed.

(** X6.  Two requests with the same cache key ask for the same capability;
    and then two stock symbols or two indicator names are equal once
    upper-cased, two coin lists are the same text once the default list
    stands in for a missing one, and two base currencies are the same text
    once USD stands in for a missing one.  Conversions are the exception:
    the key joins the two currencies with an underscore, so moving an
    underscore from one currency to the other gives the same key. *)
Theorem X6_keys_separate_capabilities `{Engine} (q1 q2 : request) (a b c : string) :
  (cacheKey_of q1 = cacheKey_of q2 ->
   Service.capability_of q1 = Service.capability_of q2
   /\ match q1, q2 with
      | Stock s1, Stock s2 => toUpperCase s1 = toUpperCase s2
      | Economic i1, Economic i2 => toUpperCase i1 = toUpperCase i2
      | Crypto ids1, Crypto ids2 =>
          param_or ids1 default_cryptoIds = param_or ids2 default_cryptoIds
      | ExchangeRates b1, ExchangeRates b2 => param_or b1 "USD" = param_or b2 "USD"
      | _, _ => True
      end)
  /\ cacheKey_of (Convert (a +:+ "_" +:+ b) c "1") = cacheKey_of (Convert a (b +:+ "_" +:+ c) "1").
Proof.
  split.
  - destruct q1, q2; cbn [cacheKey_of Service.capability_of];
      unfold exchange_cacheKey, stock_cacheKey, crypto_cacheKey, economic_cacheKey,
        convert_cacheKey;
      cbn [String.append]; intros Heq; try discriminate Heq;
      (split; [reflexivity|]); try exact I; now injection Heq.
  - cbn [cacheKey_of]. unfold convert_cacheKey. now rewrite !append_assoc.
Qed.

(** The theorem at work: the default coin list with and without being
    spelled out. *)
Lemma X6_keys_separate_capabilities_witness :
  param_or None default_cryptoIds
  = param_or (Some "bitcoin,ethereum,cardano,polkadot,chainlink") default_cryptoIds.
Proof.
  exact (proj2 (proj1 (X6_keys_separate_capabilities (H := Ecma.engine)
                         (Crypto None)
                         (Crypto (Some "bitcoin,ethereum,cardano,polkadot,chainlink"))
                         "" "" "")
                  eq_refl)).
Defined.

(** X7.  Handling a request makes at most one upstream request, and never
    retries: none when the cache answers, and then the state is left as it
    was; exactly one, for the request's own URL, otherwise.  It changes
    nothing under any cache key but its own, and nothing at all in the cache
    when the upstream request is rejected. *)
Theorem X7_one_request_own_key `{Engine} (env : environment) (q : request)
    (net : network) (now : Z) (st : state) :
  let st' := snd (handle env q net now st) in
  (cache_hit (cacheKey_of q) now st = true -> st' = st)
  /\ (cache_hit (cacheKey_of q) now st = false ->
      requested st' = (requested st ++ [url_of env q])%list)
  /\ (forall key, key <> cacheKey_of q -> cache st' !! key = cache st !! key)
  /\ (rejected (net (url_of env q)) = true -> cache st' = cache st).
Proof.
  intros st'. unfold st'. rewrite handle_unfold.
  destruct (makeAPIRequest_spec net (url_of env q) (cacheKey_of q) now st)
    as [Hhit | data Hmiss Hful | error Hmiss Hrej]; cbn [snd cache requested].
  - repeat split; try reflexivity; congruence.
  - split; [congruence|]. split; [reflexivity|]. split.
    + intros key Hne. unfold Store.set. now rewrite lookup_insert_ne.
    + unfold rejected. now rewrite Hful.
  - repeat split; try reflexivity; congruence.
Qed.

(** The theorem at work on a cold cache. *)
Lemma X7_one_request_own_key_witness :
  requested (snd (handle (H := Ecma.engine) env_free (Stock "AAPL") (answers aapl_quote)
                    t0 initial))
  = ([] ++ [url_of (H := Ecma.engine) env_free (Stock "AAPL")])%list.
Proof.
  exact (proj1 (proj2 (X7_one_request_own_key (H := Ecma.engine) env_free (Stock "AAPL")
                         (answers aapl_quote) t0 initial)) eq_refl).
Defined.

(** X8.  For every capability: once a payload that reads as true has been
    fetched and answered with a success, an identical request within five
    minutes of the fetch is answered without an upstream request, with
    [cached: true] and with the same [data] as the first answer. *)
Theorem X8_repeat_gets_same_data `{Engine} (env : environment) (q : request)
    (net net2 : network) (now now2 : Z) (st : state) (data : jsval) (r : http_response) :
  cache_hit (cacheKey_of q) now st = false ->
  outcome (net (url_of env q)) = Fulfilled data ->
  truthy data = true ->
  fst (handle env q net now st) = Normal r ->
  succeeded r = true ->
  now2 < now + Z.of_N (elapsed (net (url_of env q))) + 300000 ->
  handle env q net2 now2 (snd (handle env q net now st))
  = (Normal {| status := 200;
               body := JObj [("success", JBool true);
                             ("data", envelope_field r "data");
                             ("cached", JBool true);
                             ("timestamp", JStr (toISOString now2))] |},
     snd (handle env q net now st)).
Proof.
  intros Hmiss Hful Htruthy Hr Hs Hlt.
  rewrite (repeat_is_served_from_cache env q net net2 now now2 st data
             Hmiss Hful Htruthy Hlt).
  rewrite (handle_fetched env q net now st data Hmiss Hful) in Hr. cbn [fst] in Hr.
  now rewrite (answer_again env q data false true _ now2 r Hr Hs).
Qed.

(** The theorem at work on the coin prices, asked again after four
    minutes while the upstream is down. *)
Lemma X8_repeat_gets_same_data_witness :
  handle (H := Ecma.engine) env_free (Crypto None) times_out (t0 + 240000)
    (snd (handle (H := Ecma.engine) env_free (Crypto None)
            (answers (JObj [("bitcoin", JObj [("usd", JNum 36000)])])) t0 initial))
  = (Normal {| status := 200;
               body := JObj [("success", JBool true);
                             ("data", JObj [("bitcoin", JObj [("usd", JNum 36000)])]);
                             ("cached", JBool true);
                             ("timestamp", JStr "2023-11-14T22:17:20.000Z")] |},
     snd (handle (H := Ecma.engine) env_free (Crypto None)
            (answers (JObj [("bitcoin", JObj [("usd", JNum 36000)])])) t0 initial)).
Proof.
  refine (X8_repeat_gets_same_data (H := Ecma.engine) env_free (Crypto None)
            (answers (JObj [("bitcoin", JObj [("usd", JNum 36000)])])) times_out
            t0 (t0 + 240000) initial _ _ eq_refl eq_refl eq_refl eq_refl eq_refl _).
  reflexivity.
Defined.

(* ===================================================================== *)
(** ** Sequences of requests *)
(* ===================================================================== *)

Lemma serve_snoc `{Engine} (env : environment) (arrivals : list Service.arrival)
    (a : Service.arrival) (st : state) :
  Service.serve env (arrivals ++ [a]) st
  = snd (handle env (Service.what a) (Service.upstream a) (Service.at_time a)
           (Service.serve env arrivals st)).
Proof. unfold Service.serve. now rewrite fold_left_app. Qed.

(** An entry found in the cache after a request was either there before or
    is the payload this request fetched. *)
Lemma handle_cache_entries `{Engine} (env : environment) (q : request)
    (net : network) (now : Z) (st : state) (key : string) (e : Store.entry) :
  cache (snd (handle env q net now st)) !! key = Some e ->
  cache st !! key = Some e
  \/ (key = cacheKey_of q
      /\ outcome (net (url_of env q)) = Fulfilled (Store.value e)
      /\ Store.storedAt e = now + Z.of_N (elapsed (net (url_of env q)))
      /\ Store.ttl e = 300000).
Proof.
  rewrite handle_unfold.
  destruct (makeAPIRequest_spec net (url_of env q) (cacheKey_of q) now st)
    as [Hhit | data Hmiss Hful | error Hmiss Hrej]; cbn [snd cache]; auto.
  unfold Store.set. destruct (decide (cacheKey_of q = key)) as [<-|Hne].
  - rewrite lookup_insert_eq. intros [= <-]. right. cbn. auto.
  - rewrite lookup_insert_ne by exact Hne. auto.
Qed.

Lemma fetched_by_more `{Engine} (env : environment) (arrivals : list Service.arrival)
    (a : Service.arrival) (key : string) (e : Store.entry) :
  Service.fetched_by env arrivals key e ->
  Service.fetched_by env (arrivals ++ [a]) key e.
Proof.
  intros (a0 & Hin & Hrest). exists a0. split; [apply in_or_app; now left | exact Hrest].
Qed.

(** Every entry of the cache was fetched by one of the arrivals. *)
Lemma served_cache_sound `{Engine} (env : environment)
    (arrivals : list Service.arrival) (key : string) (e : Store.entry) :
  cache (Service.serve env arrivals initial) !! key = Some e ->
  Service.fetched_by env arrivals key e.
Proof.
  revert key e. induction arrivals as [|a arrivals IH] using rev_ind; intros key e.
  - cbn. rewrite lookup_empty. discriminate.
  - rewrite serve_snoc. intros Hlookup.
    destruct (handle_cache_entries _ _ _ _ _ _ _ Hlookup)
      as [Hold | (-> & Hful & Hat & Httl)].
    + apply fetched_by_more, IH, Hold.
    + exists a. split; [apply in_or_app; right; now left|].
      repeat split; assumption.
Qed.

(** X9.  Starting from an empty cache and handling any requests one after
    another, with any upstream behaviour: every cache entry holds a payload
    the upstream really sent in answer to a request with that very key,
    stamped with the time that answer arrived and a lifetime of five
    minutes; the server contacts no URL but those of the requests it
    received, and never more often than it received requests. *)
Theorem X9_cache_holds_only_fetched_payloads `{Engine} (env : environment)
    (arrivals : list Service.arrival) :
  let st := Service.serve env arrivals initial in
  (forall key e, cache st !! key = Some e -> Service.fetched_by env arrivals key e)
  /\ (forall url, In url (requested st) ->
                  exists a, In a arrivals /\ url = url_of env (Service.what a))
  /\ (length (requested st) <= length arrivals)%nat.
Proof.
  intros st. split; [intros key e; apply served_cache_sound|].
  unfold st. clear st. induction arrivals as [|a arrivals [IHurl IHlen]] using rev_ind.
  - split; [intros url []|cbn; lia].
  - rewrite serve_snoc, handle_unfold.
    destruct (makeAPIRequest_spec (Service.upstream a) (url_of env (Service.what a))
                (cacheKey_of (Service.what a)) (Service.at_time a)
                (Service.serve env arrivals initial))
      as [Hhit | data Hmiss Hful | error Hmiss Hrej]; cbn [snd requested];
      rewrite ?length_app; cbn [length]; (split; [|lia]); intros url Hin;
      try (apply in_app_or in Hin as [Hin|[<-|[]]];
           [|exists a; split; [apply in_or_app; right; now left | reflexivity]]);
      destruct (IHurl url Hin) as (a0 & Ha0 & ->);
      exists a0; (split; [apply in_or_app; now left | reflexivity]).
Qed.

(** The cached flag of an envelope is the flag [makeAPIRequest] returned. *)
Lemma answer_cached_flag `{Engine} (env : environment) (q : request)
    (result : api_result) (later : Z) (r : http_response) :
  answer env q result later = Normal r ->
  envelope_field r "cached" = JBool true ->
  exists data, result = ApiSuccess data true.
Proof.
  destruct result as [data cached | error code].
  - intros Hr Hflag. exists data. f_equal.
    destruct cached; [reflexivity|]. exfalso. revert Hr Hflag.
    destruct q as [base | symbol | ids | indicator | from to amount]; cbn [answer].
    + intros [= <-] Hflag. discriminate Hflag.
    + unfold stock_answer, stock_respond.
      destruct (get_field data "Global Quote") as [quote|]; cbn [bind try_catch];
        [|intros [= <-] Hflag; discriminate Hflag].
      destruct (truthy quote && has_own_keys quote) eqn:Hok;
        [|intros [= <-] Hflag; discriminate Hflag].
      destruct quote; try discriminate Hok; cbn; intros [= <-] Hflag; discriminate Hflag.
    + intros [= <-] Hflag. discriminate Hflag.
    + unfold economic_answer, economic_respond.
      destruct (get_field data "data") as [series|]; cbn [bind try_catch];
        [|intros [= <-] Hflag; discriminate Hflag].
      destruct (truthy series); [|intros [= <-] Hflag; discriminate Hflag].
      destruct (slice_from_start series 10); cbn [bind try_catch];
        intros [= <-] Hflag; discriminate Hflag.
    + unfold convert_answer, convert_respond, convertedAmount.
      destruct (conversionRate_of env to data) as [rate|]; cbn [bind try_catch];
        [|intros [= <-] Hflag; discriminate Hflag].
      destruct (truthy rate); [|intros [= <-] Hflag; discriminate Hflag].
      destruct (ToNumber rate); cbn [bind try_catch];
        intros [= <-] Hflag; discriminate Hflag.
  - intros Hr Hflag. exfalso. revert Hr Hflag.
    destruct q; cbn; intros [= <-] Hflag; discriminate Hflag.
Qed.

(** X10.  A cached answer is never older than five minutes: when, after
    any sequence of requests from an empty cache, an envelope says
    [cached: true], some earlier request with the same key fetched the
    payload it is built from, the upstream's answer to that request arrived
    less than five minutes before the present one, and the present request
    caused no upstream traffic. *)
Theorem X10_cached_answers_are_fresh `{Engine} (env : environment)
    (arrivals : list Service.arrival) (q : request) (net : network) (now : Z)
    (r : http_response) :
  let st := Service.serve env arrivals initial in
  fst (handle env q net now st) = Normal r ->
  envelope_field r "cached" = JBool true ->
  exists a payload,
    In a arrivals
    /\ cacheKey_of (Service.what a) = cacheKey_of q
    /\ outcome (Service.upstream a (url_of env (Service.what a))) = Fulfilled payload
    /\ now < Service.resolved_at env a + 300000
    /\ answer env q (ApiSuccess payload true) now = Normal r
    /\ snd (handle env q net now st) = st.
Proof.
  intros st. rewrite handle_unfold.
  destruct (makeAPIRequest_spec net (url_of env q) (cacheKey_of q) now st)
    as [Hhit | data Hmiss Hful | error Hmiss Hrej]; cbn [fst snd]; intros Hr Hflag.
  - unfold cache_hit, Store.get in Hhit, Hr.
    destruct (cache st !! cacheKey_of q) as [e|] eqn:He; [|discriminate Hhit].
    destruct (Store.servable e now) eqn:Hserv; [|discriminate Hhit].
    destruct (served_cache_sound env arrivals _ e He) as (a & Hin & Hkey & Hful & Hat & Httl).
    exists a, (Store.value e). repeat split; try assumption.
    unfold Store.servable in Hserv. rewrite Hat, Httl in Hserv.
    now apply Z.ltb_lt.
  - destruct (answer_cached_flag _ _ _ _ _ Hr Hflag) as (? & [=]).
  - destruct (answer_cached_flag _ _ _ _ _ Hr Hflag) as (? & [=]).
Qed.

(** The theorem at work: after the morning's requests the only quote in the
    cache is the one the first request fetched. *)
Lemma X9_cache_holds_only_fetched_payloads_witness :
  Service.fetched_by (H := Ecma.engine) env_free Scenario.morning "stock_AAPL"
    {| Store.value := aapl_quote; Store.storedAt := t0 + 120; Store.ttl := 300000 |}
  /\ (length (requested (Service.serve (H := Ecma.engine) env_free Scenario.morning initial))
      <= 3)%nat.
Proof.
  split.
  - exact (proj1 (X9_cache_holds_only_fetched_payloads (H := Ecma.engine) env_free
                    Scenario.morning) "stock_AAPL" _ eq_refl).
  - exact (proj2 (proj2 (X9_cache_holds_only_fetched_payloads (H := Ecma.engine) env_free
                           Scenario.morning))).
Defined.

(** The theorem at work: the quote asked for once more, 200 seconds after
    the first request, while the upstream is down. *)
Lemma X10_cached_answers_are_fresh_witness :
  exists a payload,
    In a Scenario.morning
    /\ cacheKey_of (H := Ecma.engine) (Service.what a)
       = cacheKey_of (H := Ecma.engine) (Stock "Aapl")
    /\ outcome (Service.upstream a (url_of (H := Ecma.engine) env_free (Service.what a)))
       = Fulfilled payload
    /\ t0 + 200000 < Service.resolved_at (H := Ecma.engine) env_free a + 300000
    /\ answer (H := Ecma.engine) env_free (Stock "Aapl") (ApiSuccess payload true)
         (t0 + 200000)
       = Normal {| status := 200;
                   body := JObj [("success", JBool true);
                                 ("data",
                                  JObj [("symbol", JStr "AAPL");
                                        ("price", JStr "189.8400");
                                        ("change", JStr "2.4000");
                                        ("changePercent", JStr "1.2804%");
                                        ("volume", JStr "41342338");
                                        ("lastUpdate", JStr "2023-11-14")]);
                                 ("cached", JBool true);
                                 ("timestamp", JStr "2023-11-14T22:16:40.000Z")] |}
    /\ snd (handle (H := Ecma.engine) env_free (Stock "Aapl") times_out (t0 + 200000)
              (Service.serve (H := Ecma.engine) env_free Scenario.morning initial))
       = Service.serve (H := Ecma.engine) env_free Scenario.morning initial.
Proof.
  exact (X10_cached_answers_are_fresh (H := Ecma.engine) env_free Scenario.morning
           (Stock "Aapl") times_out (t0 + 200000) _ eq_refl eq_refl).
Defined.

(* ===================================================================== *)
(** ** The page and the server *)
(* ===================================================================== *)

(** X11.  The page can show the server as online only when the body it
    fetched has a [success] field that reads as true.  The body of the
    server's own health check has the fields [status], [timestamp] and
    [server] and no [success]: [makeRequest] rejects it with
    ["API request failed"], and the badge reads "Server: Offline" for every
    server name and at every time. *)
Theorem X11_health_badge_is_always_offline (ToString : jsval -> completion string)
    (SERVER_NAME : option string) (now : Z) :
  (forall f,
      Browser.checkServerHealth ToString f <> Browser.offline ->
      exists data,
        f = Browser.Parsed data /\ truthy (get_field_opt data "success") = true)
  /\ Browser.makeRequest (Browser.Parsed (body (Service.health SERVER_NAME now)))
     = Browser.Raised (Browser.NewError (JStr "API request failed"))
  /\ Browser.checkServerHealth ToString
       (Browser.Parsed (body (Service.health SERVER_NAME now)))
     = Browser.offline.
Proof.
  split; [|split; reflexivity].
  intros f Hshown. unfold Browser.checkServerHealth, Browser.makeRequest in Hshown.
  destruct f as [reason | | data]; try (now contradiction Hshown).
  exists data. split; [reflexivity|].
  destruct data as [| | b | x | s | elems | props | name]; cbn in Hshown |- *;
    try (now contradiction Hshown).
  destruct (truthy (default JUndefined (own_property props "success")));
    [reflexivity | now contradiction Hshown].
Qed.

(** The theorem at work: a body with [success: true] is what it takes. *)
Lemma X11_health_badge_is_always_offline_witness :
  exists data,
    Browser.Parsed (JObj [("success", JBool true); ("server", JStr "web-01")])
    = Browser.Parsed data
    /\ truthy (get_field_opt data "success") = true.
Proof.
  apply (proj1 (X11_health_badge_is_always_offline (fun _ => Normal "") None 0)
           (Browser.Parsed (JObj [("success", JBool true); ("server", JStr "web-01")]))).
  discriminate.
Defined.

(** X12.  What the page's [makeRequest] makes of the gateway's envelopes:
    for every answer of the five routes, a body that arrives with the
    [success] and [error] fields the server sent is returned to the caller
    when the envelope is a success, and otherwise rejected with an [Error]
    made from the server's [error], never with the fallback text. *)
Theorem X12_page_rejects_what_the_gateway_fails `{Engine} (env : environment)
    (q : request) (net : network) (now : Z) (st : state) (r : http_response)
    (props : list (string * jsval)) :
  fst (handle env q net now st) = Normal r ->
  get_field_opt (JObj props) "success" = envelope_field r "success" ->
  get_field_opt (JObj props) "error" = envelope_field r "error" ->
  Browser.makeRequest (Browser.Parsed (JObj props))
  = if succeeded r then Browser.Returned (JObj props)
    else Browser.Raised (Browser.NewError (envelope_field r "error")).
Proof.
  intros Hr Hsuccess Herror.
  destruct (handle_shape env q net now st) as (r' & Hr' & Hshape).
  rewrite Hr in Hr'. injection Hr' as <-.
  unfold Browser.makeRequest. cbn [get_field].
  change (default JUndefined (own_property props "success"))
    with (get_field_opt (JObj props) "success").
  rewrite Hsuccess, Herror.
  apply Bool.orb_true_iff in Hshape as [Hok | Hko].
  - apply success_envelope_succeeded in Hok. unfold succeeded in Hok |- *.
    destruct (envelope_field r "success") as [| | [|] | | | | |]; try discriminate Hok.
    reflexivity.
  - apply failure_envelope_failed in Hko as [Hfailed Htext].
    unfold failed in Hfailed. unfold succeeded.
    destruct (envelope_field r "success") as [| | [|] | | | | |];
      try discriminate Hfailed.
    cbn [truthy]. unfold js_or. now rewrite Htext.
Qed.

(** The theorem at work on the 404 for an unknown symbol. *)
Lemma X12_page_rejects_what_the_gateway_fails_witness :
  Browser.makeRequest
    (Browser.Parsed
       (JObj [("success", JBool false);
              ("error", JStr "Stock symbol 'ZZZZ' not found or invalid")]))
  = Browser.Raised (Browser.NewError (JStr "Stock symbol 'ZZZZ' not found or invalid")).
Proof.
  exact (X12_page_rejects_what_the_gateway_fails (H := Ecma.engine) env_free (Stock "ZZZZ")
           (answers empty_quote) t0 initial _ _ eq_refl eq_refl eq_refl).
Defined.

(* ===================================================================== *)
(** ** The command-line tool *)
(* ===================================================================== *)

(** X13.  The command-line tool and the gateway read the text of an
    upstream failure from the same two places in the same order (the
    [message] of the upstream's JSON body, then the message of the axios
    error): on the routes that forward it, the [error] of the gateway's
    envelope is the text the command-line tool would put in its [Error],
    except that where the tool ends up with a text that reads as false the
    gateway says ["API request failed"]. *)
Theorem X13_tool_and_gateway_agree_on_error_text `{Engine} (env : environment)
    (q : request) (net : network) (now : Z) (st : state) (text : jsval) :
  (forall indicator, q <> Economic indicator) ->
  cache_hit (cacheKey_of q) now st = false ->
  Cli.makeRequest (net (url_of env q)) = Cli.Failed text ->
  exists r,
    fst (handle env q net now st) = Normal r
    /\ envelope_field r "error"
       = if truthy text then text else JStr "API request failed".
Proof.
  intros Hnot Hmiss Htool. unfold Cli.makeRequest in Htool.
  destruct (outcome (net (url_of env q))) as [data|error] eqn:Hout; [discriminate Htool|].
  injection Htool as <-.
  rewrite (handle_failed env q net now st error Hmiss Hout). cbn [fst].
  destruct q as [base | symbol | ids | indicator | from to amount]; cbn [answer];
    try (now destruct (Hnot indicator));
    eexists; (split; [reflexivity|]); reflexivity.
Qed.

(** The theorem at work on a 503 with a JSON error body. *)
Lemma X13_tool_and_gateway_agree_on_error_text_witness :
  exists r,
    fst (handle (H := Ecma.engine) env_free (Stock "AAPL") unavailable t0 initial) = Normal r
    /\ envelope_field r "error" = JStr "Service Unavailable".
Proof.
  exact (X13_tool_and_gateway_agree_on_error_text (H := Ecma.engine) env_free (Stock "AAPL")
           unavailable t0 initial (JStr "Service Unavailable")
           ltac:(discriminate) eq_refl eq_refl).
Defined.

Section BudgetFacts.
Context `{Engine}.
Variable formatCurrency : float -> string.

Lemma calculateBudget_lists (monthlyIncome : float) (expenses : list Cli.expense)
    (e : Cli.expense) :
  In e expenses ->
  In (Cli.breakdown_line formatCurrency e) (Cli.calculateBudget formatCurrency monthlyIncome expenses).
Proof.
  intros Hin. unfold Cli.calculateBudget.
  apply in_or_app. right. apply in_or_app. left.
  destruct expenses as [|e0 rest]; [destruct Hin|].
  right. now apply (in_map (fun exp => Cli.breakdown_line formatCurrency exp)).
Qed.

(** The loop keeps what it has collected, adds only what it accepts, and
    prints all of it at the end. *)
Lemma addExpense_collects (monthlyIncome : float) (n : nat) :
  forall (answers : list string) (collected : list Cli.expense)
         (shown : list Cli.shown) (expenses : list Cli.expense),
    (length answers <= n)%nat ->
    Forall Cli.accepted collected ->
    Cli.addExpense formatCurrency monthlyIncome answers collected = (shown, Some expenses) ->
    Forall Cli.accepted expenses
    /\ (forall e, In e expenses -> In (Cli.breakdown_line formatCurrency e) shown)
    /\ exists more, expenses = (collected ++ more)%list.
Proof.
  induction n as [|n IH]; intros answers collected shown expenses Hlen Hacc Hrun.
  - destruct answers; [discriminate Hrun | cbn in Hlen; lia].
  - destruct answers as [|typed_name rest]; [discriminate Hrun|].
    cbn [Cli.addExpense] in Hrun.
    destruct (String.eqb (toLowerCase typed_name) "done") eqn:Hdone.
    + injection Hrun as <- <-. split; [exact Hacc|]. split.
      * intros e He. right. now apply calculateBudget_lists.
      * exists []. now rewrite app_nil_r.
    + destruct rest as [|typed_amount rest']; [discriminate Hrun|].
      cbn zeta in Hrun.
      destruct (Cli.addExpense formatCurrency monthlyIncome rest' _)
        as [more done] eqn:Hrest.
      injection Hrun as <- ->.
      cbn in Hlen.
      destruct (PrimFloat.ltb PrimFloat.zero (Cli.or_zero (parseFloat typed_amount)))
        eqn:Hpos.
      * assert (Hacc' : Forall Cli.accepted
                          (collected ++ [{| Cli.name := typed_name;
                                            Cli.amount :=
                                              Cli.or_zero (parseFloat typed_amount) |}])).
        { apply Forall_app. split; [exact Hacc|]. constructor; [|constructor].
          split; [exact Hpos|]. cbn. intros Heq. rewrite Heq in Hdone.
          discriminate Hdone. }
        destruct (IH rest' _ more expenses ltac:(lia) Hacc' Hrest)
          as (Hall & Hprinted & (tail & ->)).
        split; [exact Hall|]. split.
        -- intros e He. right. right. now apply Hprinted.
        -- eexists. now rewrite <- app_assoc.
      * destruct (IH rest' _ more expenses ltac:(lia) Hacc Hrest)
          as (Hall & Hprinted & Hmore).
        split; [exact Hall|]. split; [|exact Hmore].
        intros e He. right. right. now apply Hprinted.
Qed.

End BudgetFacts.

(** X14.  Whatever is typed into the budget calculator, once the list is
    closed with "done" (in any letter case) every expense it reports has an
    amount greater than zero and a name that is not "done"; amounts that are
    not numbers, zero or negative never get in; and each reported expense
    has its line in the printed breakdown. *)
Theorem X14_budget_keeps_only_positive_expenses `{Engine}
    (formatCurrency : float -> string) (answers : list string)
    (shown : list Cli.shown) (expenses : list Cli.expense) :
  Cli.budgetCalculator formatCurrency answers = (shown, Some expenses) ->
  Forall (fun e => PrimFloat.ltb PrimFloat.zero (Cli.amount e) = true
                   /\ toLowerCase (Cli.name e) <> "done") expenses
  /\ forall e, In e expenses ->
               In (Cli.Printed ("  " +:+ Cli.name e +:+ ": "
                                  +:+ formatCurrency (Cli.amount e))) shown.
Proof.
  unfold Cli.budgetCalculator. destruct answers as [|income rest]; [discriminate|].
  destruct (Cli.addExpense formatCurrency (Cli.or_zero (parseFloat income)) rest [])
    as [more done] eqn:Hrun.
  intros [= <- ->].
  destruct (addExpense_collects formatCurrency _ (length rest) rest [] more expenses
              (le_n _) ltac:(constructor) Hrun) as (Hall & Hprinted & _).
  split; [exact Hall|]. intros e He. right. right. now apply Hprinted.
Qed.

(** The theorem at work: of rent, a refund of -5 and food for "abc", only
    the rent is reported; "Done" closes the list. *)
Lemma X14_budget_keeps_only_positive_expenses_witness :
  snd (Cli.budgetCalculator (H := Ecma.engine) Scenario.dollars Scenario.typed)
  = Some [{| Cli.name := "Rent"; Cli.amount := 1200 |}]
  /\ In (Cli.Printed "  Rent: $1200.00")
       (fst (Cli.budgetCalculator (H := Ecma.engine) Scenario.dollars Scenario.typed)).
Proof.
  split; [reflexivity|].
  exact (proj2 (X14_budget_keeps_only_positive_expenses (H := Ecma.engine) Scenario.dollars
                  Scenario.typed _ _ eq_refl)
           {| Cli.name := "Rent"; Cli.amount := 1200 |} (or_introl eq_refl)).
Defined.

(** X15.  When the income of the budget calculator is not a positive
    number (a blank or non-numeric entry counts as 0), the savings rate is 0
    and is printed as such, and the advice is never "Great job" or "Good
    start": it is the warning when the expenses exceed the income and "Room
    for improvement" otherwise. *)
Theorem X15_no_income_no_praise `{Engine} (monthlyIncome : float)
    (expenses : list Cli.expense) :
  PrimFloat.ltb PrimFloat.zero monthlyIncome = false ->
  let remaining := PrimFloat.sub monthlyIncome (Cli.totalExpenses expenses) in
  Cli.savingsRate monthlyIncome remaining = PrimFloat.zero
  /\ Cli.advice remaining (Cli.savingsRate monthlyIncome remaining)
     = (if PrimFloat.ltb remaining PrimFloat.zero
        then Cli.warning else Cli.room_for_improvement)
  /\ forall formatCurrency,
       In (Cli.Printed ("Savings Rate: " +:+ toFixed PrimFloat.zero 1 +:+ "%"))
         (Cli.calculateBudget formatCurrency monthlyIncome expenses).
Proof.
  intros Hnone remaining.
  assert (Hrate : Cli.savingsRate monthlyIncome remaining = PrimFloat.zero).
  { unfold Cli.savingsRate. now rewrite Hnone. }
  split; [exact Hrate|]. split.
  - rewrite Hrate. unfold Cli.advice.
    destruct (PrimFloat.ltb remaining PrimFloat.zero); reflexivity.
  - intros formatCurrency. unfold Cli.calculateBudget.
    fold remaining. rewrite Hrate. apply in_or_app. left. cbn. tauto.
Qed.

(** The theorem at work on an income left blank. *)
Lemma X15_no_income_no_praise_witness :
  Cli.advice (PrimFloat.sub PrimFloat.zero (Cli.totalExpenses []))
    (Cli.savingsRate PrimFloat.zero (PrimFloat.sub PrimFloat.zero (Cli.totalExpenses [])))
  = Cli.room_for_improvement.
Proof.
  exact (proj1 (proj2 (X15_no_income_no_praise (H := Ecma.engine) PrimFloat.zero []
                         eq_refl))).
Defined.

(* ===================================================================== *)
(** ** The free exchange-rate provider *)
(* ===================================================================== *)

Lemma append_cancel_l (a b c : string) : a +:+ b = a +:+ c -> b = c.
Proof.
  induction a as [|x a IH]; [trivial|].
  change (String x (a +:+ b) = String x (a +:+ c) -> b = c). intros [= Heq]. now apply IH.
Qed.

(** X16.  Without the paid credential the URL of a conversion names the
    source currency only, while the cache key names both currencies.  So
    conversions from one currency to two different targets, neither of them
    cached, fetch the very same URL twice, however close together they
    are. *)
Theorem X16_free_table_fetched_per_target `{Engine} (env : environment)
    (from to1 to2 amount1 amount2 : string) (net1 net2 : network) (now1 now2 : Z)
    (st : state) :
  paid env = false ->
  to1 <> to2 ->
  cache_hit (convert_cacheKey from to1) now1 st = false ->
  cache_hit (convert_cacheKey from to2) now2 st = false ->
  url_of env (Convert from to1 amount1) = "https://api.exchangerate-api.com/v4/latest/" +:+ from
  /\ url_of env (Convert from to2 amount2) = url_of env (Convert from to1 amount1)
  /\ requested
       (snd (handle env (Convert from to2 amount2) net2 now2
               (snd (handle env (Convert from to1 amount1) net1 now1 st))))
     = (requested st ++ ["https://api.exchangerate-api.com/v4/latest/" +:+ from;
                         "https://api.exchangerate-api.com/v4/latest/" +:+ from])%list.
Proof.
  intros Hfree Hdiff Hmiss1 Hmiss2.
  assert (Hurl : forall to amount,
             url_of env (Convert from to amount)
             = "https://api.exchangerate-api.com/v4/latest/" +:+ from).
  { intros to amount. cbn [url_of]. unfold convert_url. now rewrite Hfree. }
  split; [apply Hurl|]. split; [now rewrite !Hurl|].
  assert (Hkeys : cacheKey_of (Convert from to1 amount1)
                  <> cacheKey_of (Convert from to2 amount2)).
  { cbn [cacheKey_of]. unfold convert_cacheKey. intros Heq.
    apply (append_cancel_l "convert_"), append_cancel_l, (append_cancel_l "_") in Heq.
    contradiction. }
  rewrite miss_requests_upstream.
  - rewrite miss_requests_upstream by exact Hmiss1.
    rewrite !Hurl. now rewrite <- app_assoc.
  - unfold cache_hit. rewrite other_key_untouched by exact Hkeys. exact Hmiss2.
Qed.

(** The theorem at work: 8 USD to EUR, and a second later 8 USD to RWF. *)
Lemma X16_free_table_fetched_per_target_witness :
  requested
    (snd (handle (H := Ecma.engine) env_free (Convert "USD" "RWF" "8") (answers usd_rates)
            (t0 + 1000)
            (snd (handle (H := Ecma.engine) env_free (Convert "USD" "EUR" "8")
                    (answers usd_rates) t0 initial))))
  = ([] ++ ["https://api.exchangerate-api.com/v4/latest/" +:+ "USD";
            "https://api.exchangerate-api.com/v4/latest/" +:+ "USD"])%list.
Proof.
  exact (proj2 (proj2
           (X16_free_table_fetched_per_target (H := Ecma.engine) env_free
              "USD" "EUR" "RWF" "8" "8" (answers usd_rates) (answers usd_rates)
              t0 (t0 + 1000) initial eq_refl ltac:(discriminate) eq_refl eq_refl))).
Defined.
